(** * Daily MBTA delay ETL (dags/daily_mbta_delay_etl.py)

    A shallow embedding of the five tasks of the DAG [daily_mbta_delay_etl]
    and of the way Airflow runs them, followed by the properties of the
    pipeline.

    Modelling choices, fixed here once:
    - a decoded JSON document is a value of [json]; numbers are the integers
      the feed carries (delays in seconds, direction ids), fractional
      literals are outside the model;
    - a Python exception is a value of [exn], and a computation that may
      raise returns a [result];
    - the only Python float the DAG computes is [delay_seconds / 60.0]; it is
      a binary64 value ([PrimFloat.float]) and the division is the IEEE one;
    - a pandas DataFrame is its column labels and its rows; a CSV file holds
      the frame that was written to it, cell values being compared as values
      (dtype inference and number formatting of the CSV text are below this
      model);
    - the file system is a finite map from paths to files; directories are
      not tracked, so [os.makedirs(..., exist_ok=True)] leaves it unchanged. *)

From Stdlib Require Import ZArith PrimFloat SpecFloat FloatOps.
From stdpp Require Import base option list strings gmap pretty.

Local Open Scope string_scope.
Local Open Scope list_scope.
#[local] Set Warnings "-register-all".

(** ** Python values and exceptions *)

Inductive json : Type :=
| JNull
| JBool (b : bool)
| JInt (n : Z)
| JStr (s : string)
| JArr (items : list json)
| JObj (members : list (string * json)).

Inductive exn : Type :=
| AirflowFailException
| AttributeError
| TypeError
| KeyError
| OverflowError
| FileNotFoundError
| JSONDecodeError
| EmptyDataError
| ParserError
| RequestException.

Inductive result (A : Type) : Type :=
| Ok (a : A)
| Raise (e : exn).
Arguments Ok {A} a.
Arguments Raise {A} e.

#[global] Instance result_ret : MRet result := λ A a, Ok a.
#[global] Instance result_bind : MBind result := λ A B k m,
  match m with
  | Ok a => k a
  | Raise e => Raise e
  end.
#[global] Instance result_fmap : FMap result := λ A B g m,
  match m with
  | Ok a => Ok (g a)
  | Raise e => Raise e
  end.

Definition is_ok {A} (m : result A) : bool :=
  match m with Ok _ => true | Raise _ => false end.

(** [bool(v)]: None, False, 0, the empty string, list and dict are falsy. *)
Definition truthy (v : json) : bool :=
  match v with
  | JNull => false
  | JBool b => b
  | JInt n => negb (n =? 0)%Z
  | JStr s => negb (String.eqb s "")
  | JArr items => negb (bool_decide (items = []))
  | JObj members => negb (bool_decide (members = []))
  end.

(** [a or b] *)
Definition py_or (a b : json) : json := if truthy a then a else b.

(** [v is None] *)
Definition is_none (v : json) : bool :=
  match v with JNull => true | _ => false end.

(** [v == "text"] for a string literal on the right. *)
Definition eq_str (v : json) (text : string) : bool :=
  match v with JStr s => String.eqb s text | _ => false end.

(** The empty dict literal [{}]. *)
Definition empty_dict : json := JObj [].

(** The members of a decoded object; when a key occurs twice in the text the
    later member is the one the decoded dict holds. *)
Fixpoint member (members : list (string * json)) (key : string) (default : json) : json :=
  match members with
  | [] => default
  | (k, v) :: rest => member rest key (if String.eqb k key then v else default)
  end.

(** [o.get(key, default)]: only a dict has [get]. *)
Definition get (o : json) (key : string) (default : json) : result json :=
  match o with
  | JObj members => Ok (member members key default)
  | _ => Raise AttributeError
  end.

(** [for x in v]: lists yield their items, strings their characters, dicts
    their keys; None, booleans and integers are not iterable. *)
Definition iter (v : json) : result (list json) :=
  match v with
  | JArr items => Ok items
  | JStr s => Ok ((λ c, JStr (String c EmptyString)) <$> String.list_ascii_of_string s)
  | JObj members => Ok ((λ kv, JStr kv.1) <$> members)
  | JNull | JBool _ | JInt _ => Raise TypeError
  end.

(** ** Lookup tables: dicts keyed by decoded identifiers *)

Definition hashable (k : json) : bool :=
  match k with
  | JArr _ | JObj _ => false
  | _ => true
  end.

(** Key equality of a dict: [True == 1] and [False == 0]. *)
Definition key_eqb (a b : json) : bool :=
  match a, b with
  | JNull, JNull => true
  | JStr s, JStr t => String.eqb s t
  | JBool x, JBool y => Bool.eqb x y
  | JInt x, JInt y => (x =? y)%Z
  | JBool x, JInt y | JInt y, JBool x => ((if x then 1 else 0) =? y)%Z
  | _, _ => false
  end.

Section Table.
Context {V : Type}.

(** The newest binding comes first, so that an assignment to a key that is
    already present shadows the older value. *)
Definition table := list (json * V).

(** [t[k] = v] *)
Definition setitem (k : json) (v : V) (t : table) : result table :=
  if hashable k then Ok ((k, v) :: t) else Raise TypeError.

Fixpoint find (k : json) (t : table) : option V :=
  match t with
  | [] => None
  | (k', v) :: rest => if key_eqb k' k then Some v else find k rest
  end.

(** [t.get(k, {})]: [None] stands for the default [{}]. *)
Definition table_get (k : json) (t : table) : result (option V) :=
  if hashable k then Ok (find k t) else Raise TypeError.
End Table.
Arguments table V : clear implicits.

(** ** Floats *)

(** [float(n)]: correctly rounded, OverflowError beyond the binary64 range. *)
Definition float_of_int (n : Z) : result float :=
  let f := SF2Prim (binary_normalize prec emax n 0 false) in
  if is_infinity f then Raise OverflowError else Ok f.

(** [v / 60.0] *)
Definition div_60 (v : json) : result float :=
  match v with
  | JInt n => f ← float_of_int n; Ok (f / 60)%float
  | JBool b => f ← float_of_int (if b then 1 else 0); Ok (f / 60)%float
  | JNull | JStr _ | JArr _ | JObj _ => Raise TypeError
  end.

(** ** Module constants and the run stamp *)

Definition DATA_DIR : string := "/opt/airflow/data".

(** The arguments every task of the DAG gets; [retry_delay] is the
    [timedelta(minutes=5)], in seconds. *)
Record task_args := {
  owner : string;
  retries : nat;
  retry_delay : Z;
}.

Definition default_args : task_args :=
  {| owner := "student";
     retries := 2;
     retry_delay := 5 * 60 |}.

(** The value Airflow passes as [execution_date]: [None] when the task is
    called without a context, otherwise the logical date, kept as the text
    [str()] gives for it. *)
Definition stamp := option string.

(** The text an f-string inserts for the stamp. *)
Definition str_stamp (execution_date : stamp) : string :=
  match execution_date with
  | None => "None"
  | Some text => text
  end.

(** ** Data frames and files *)

Record row := {
  route_id : json;
  route_name : json;
  trip_id : json;
  headsign : json;
  direction_id : json;
  status : json;
  delay_seconds : json;
  delay_minutes : option float;
  departure_time : json;
  execution_date : stamp;
}.

(** The keys of the dict appended to [rows], in the order it lists them. *)
Definition row_keys : list string :=
  ["route_id"; "route_name"; "trip_id"; "headsign"; "direction_id"; "status";
   "delay_seconds"; "delay_minutes"; "departure_time"; "execution_date"].

Record DataFrame := {
  columns : list string;
  records : list row;
}.

(** [pd.DataFrame(rows)] for a list of dicts that all have the keys
    [row_keys]: the columns are the keys of the dicts, so an empty list
    gives a frame without columns. *)
Definition frame_of_rows (rows : list row) : DataFrame :=
  {| columns := match rows with [] => [] | _ :: _ => row_keys end;
     records := rows |}.

(** [df.empty]: some axis has length zero. *)
Definition empty (df : DataFrame) : bool :=
  bool_decide (columns df = []) || bool_decide (records df = []).

(** [len(df)] *)
Definition len (df : DataFrame) : nat := length (records df).

(** [Series.notna()] on one cell. *)
Definition notna (v : json) : bool := negb (is_none v).

(** [df[df["delay_seconds"].notna()]]: selecting a column that the frame
    does not have raises KeyError. *)
Definition keep_delay_notna (df : DataFrame) : result DataFrame :=
  if bool_decide ("delay_seconds" ∈ columns df)
  then Ok {| columns := columns df;
             records := List.filter (λ r, notna (delay_seconds r)) (records df) |}
  else Raise KeyError.

(** [pd.concat([a, b], ignore_index=True)]: the rows of [a], then those of
    [b]; the columns of [a], then the columns only [b] has. *)
Definition concat (a b : DataFrame) : DataFrame :=
  {| columns := (columns a ++
                 List.filter (λ c, negb (bool_decide (c ∈ columns a))) (columns b))%list;
     records := (records a ++ records b)%list |}.

Inductive file : Type :=
| JsonFile (document : json)
| CsvFile (frame : DataFrame).

Abbreviation filesystem := (gmap string file).

(** [json.load(open(path))] *)
Definition json_load (path : string) (fs : filesystem) : result json :=
  match fs !! path with
  | None => Raise FileNotFoundError
  | Some (JsonFile document) => Ok document
  | Some (CsvFile _) => Raise JSONDecodeError
  end.

(** [json.dump(payload, open(path, "w"))] *)
Definition json_dump (payload : json) (path : string) (fs : filesystem) : filesystem :=
  <[path := JsonFile payload]> fs.

(** [df.to_csv(path, index=False)] *)
Definition to_csv (df : DataFrame) (path : string) (fs : filesystem) : filesystem :=
  <[path := CsvFile df]> fs.

(** [pd.read_csv(path)]: a frame without columns is written as a file
    without a header line, which read_csv rejects ("No columns to parse from
    file"). Reading a file that is not a CSV file is left as a parse error. *)
Definition read_csv (path : string) (fs : filesystem) : result DataFrame :=
  match fs !! path with
  | None => Raise FileNotFoundError
  | Some (CsvFile df) =>
      if bool_decide (columns df = []) then Raise EmptyDataError else Ok df
  | Some (JsonFile _) => Raise ParserError
  end.

(** [os.path.exists(path)] *)
Definition exists_path (path : string) (fs : filesystem) : bool :=
  bool_decide (is_Some (fs !! path)).

(** ** Task 3: transform_mbta_data *)

Record route_info := {
  ri_route_id : json;
  ri_route_name : json;
}.

Record trip_info := {
  ti_trip_id : json;
  ti_direction_id : json;
  ti_headsign : json;
}.

Record lookups := {
  route_lookup : table route_info;
  trip_lookup : table trip_info;
}.

(** One pass of the loop over [included]. The dict display on the right of
    the assignment is evaluated before the key is hashed. *)
Definition add_included (item : json) (lk : lookups) : result lookups :=
  item_type ← get item "type" JNull;
  item_id ← get item "id" JNull;
  a ← get item "attributes" empty_dict;
  let attrs := py_or a empty_dict in
  if eq_str item_type "route" then
    long_name ← get attrs "long_name" JNull;
    short_name ← get attrs "short_name" JNull;
    t ← setitem item_id
          {| ri_route_id := item_id; ri_route_name := py_or long_name short_name |}
          (route_lookup lk);
    Ok {| route_lookup := t; trip_lookup := trip_lookup lk |}
  else if eq_str item_type "trip" then
    direction ← get attrs "direction_id" JNull;
    sign ← get attrs "headsign" JNull;
    t ← setitem item_id
          {| ti_trip_id := item_id; ti_direction_id := direction; ti_headsign := sign |}
          (trip_lookup lk);
    Ok {| route_lookup := route_lookup lk; trip_lookup := t |}
  else Ok lk.

Fixpoint build_lookups (included : list json) (lk : lookups) : result lookups :=
  match included with
  | [] => Ok lk
  | item :: rest => lk' ← add_included item lk; build_lookups rest lk'
  end.

Definition no_lookups : lookups := {| route_lookup := []; trip_lookup := [] |}.

(** [info.get(field)] on the result of [lookup.get(id, {})]. *)
Definition info_get {V} (field : V → json) (info : option V) : json :=
  match info with
  | Some i => field i
  | None => JNull
  end.

(** One pass of the loop over [data]: the dict appended to [rows]. *)
Definition pred_row (lk : lookups) (run : stamp) (pred : json) : result row :=
  a ← get pred "attributes" empty_dict;
  let attrs := py_or a empty_dict in
  r ← get pred "relationships" empty_dict;
  let rel := py_or r empty_dict in
  rr ← get rel "route" empty_dict;
  let route_rel := py_or rr empty_dict in
  tr ← get rel "trip" empty_dict;
  let trip_rel := py_or tr empty_dict in
  rd ← get route_rel "data" JNull;
  rid ← get (py_or rd empty_dict) "id" JNull;
  td ← get trip_rel "data" JNull;
  tid ← get (py_or td empty_dict) "id" JNull;
  delay ← get attrs "delay" JNull;
  departure ← get attrs "departure_time" JNull;
  st ← get attrs "status" JNull;
  rinfo ← table_get rid (route_lookup lk);
  tinfo ← table_get tid (trip_lookup lk);
  minutes ← (if is_none delay then Ok None else Some <$> div_60 delay);
  Ok {| route_id := rid;
        route_name := info_get ri_route_name rinfo;
        trip_id := tid;
        headsign := info_get ti_headsign tinfo;
        direction_id := info_get ti_direction_id tinfo;
        status := st;
        delay_seconds := delay;
        delay_minutes := minutes;
        departure_time := departure;
        execution_date := run |}.

Fixpoint build_rows (lk : lookups) (run : stamp) (data : list json) : result (list row) :=
  match data with
  | [] => Ok []
  | pred :: rest =>
      r ← pred_row lk run pred;
      rows ← build_rows lk run rest;
      Ok (r :: rows)
  end.

(** The frame that is written: everything between [json.load] and [to_csv]. *)
Definition clean_frame (payload : json) (run : stamp) : result DataFrame :=
  data ← get payload "data" (JArr []);
  included ← get payload "included" (JArr []);
  items ← iter included;
  lk ← build_lookups items no_lookups;
  preds ← iter data;
  rows ← build_rows lk run preds;
  let df := frame_of_rows rows in
  if negb (empty df) then keep_delay_notna df else Ok df.

Definition clean_path_of (run : stamp) : string :=
  DATA_DIR +:+ "/clean/mbta_delays_" +:+ str_stamp run +:+ ".csv".

Definition transform_mbta_data (raw_path : string) (run : stamp) (fs : filesystem)
  : result (filesystem * string) :=
  payload ← json_load raw_path fs;
  df ← clean_frame payload run;
  let clean_path := clean_path_of run in
  Ok (to_csv df clean_path fs, clean_path).

(** ** Task 4: load_mbta_to_warehouse *)

Definition warehouse_path : string := DATA_DIR +:+ "/mbta_delay_warehouse.csv".

Definition load_mbta_to_warehouse (clean_path : string) (fs : filesystem)
  : result (filesystem * nat) :=
  df_clean ← read_csv clean_path fs;
  let loaded_rows := len df_clean in
  df_all ← (if exists_path warehouse_path fs
            then df_existing ← read_csv warehouse_path fs;
                 Ok (concat df_existing df_clean)
            else Ok df_clean);
  Ok (to_csv df_all warehouse_path fs, loaded_rows).

(** ** Task 5: mbta_data_quality_check *)

Definition no_delays_notice : string :=
  "Data quality check: no delayed trips were loaded for this run. " +:+
  "This may simply mean there were no delays at this time.".

Definition passed_notice (loaded_rows : Z) : string :=
  "Data quality check passed. Delayed trips loaded: " +:+ pretty loaded_rows.

(** [print(line)] appends a line to the standard output. *)
Definition print (line : string) (stdout : list string) : list string :=
  (stdout ++ [line])%list.

(** The task returns None, here [tt]. *)
Definition mbta_data_quality_check (loaded_rows : Z) (stdout : list string)
  : result (list string * unit) :=
  if (loaded_rows <=? 0)%Z
  then Ok (print no_delays_notice stdout, tt)
  else Ok (print (passed_notice loaded_rows) stdout, tt).

(** ** Tasks 1 and 2: check_mbta_api and extract_mbta_predictions *)

Definition MBTA_PREDICTIONS_URL : string :=
  "https://api-v3.mbta.com/predictions" +:+
  "?filter[route]=CR-Fitchburg" +:+
  "&include=route,trip".

(** What [requests.get] returns: the status code and what [resp.json()]
    gives for the body. *)
Record response := {
  status_code : Z;
  json_body : result json;
}.

(** The outcome of one call of [requests.get] on a URL. *)
Definition http := string → result response.

Definition check_mbta_api (requests_get : http) : result bool :=
  match requests_get (MBTA_PREDICTIONS_URL +:+ "&page[limit]=5") with
  | Raise _ => Raise AirflowFailException
  | Ok resp =>
      if negb (status_code resp =? 200)%Z then Raise AirflowFailException
      else Ok true
  end.

Definition raw_path_of (run : stamp) : string :=
  DATA_DIR +:+ "/raw/mbta_predictions_" +:+ str_stamp run +:+ ".json".

Definition extract_mbta_predictions (requests_get : http) (run : stamp) (fs : filesystem)
  : result (filesystem * string) :=
  match requests_get (MBTA_PREDICTIONS_URL +:+ "&page[limit]=500") with
  | Raise _ => Raise AirflowFailException
  | Ok resp =>
      if negb (status_code resp =? 200)%Z then Raise AirflowFailException
      else
        payload ← json_body resp;
        let raw_path := raw_path_of run in
        Ok (json_dump payload raw_path fs, raw_path)
  end.

(** ** The DAG run

    Airflow's part, as far as the DAG relies on it: a task instance is tried
    again after [retry_delay] while it has retries left, except that
    AirflowFailException fails it at once; with the default trigger rule a
    task runs only after its upstream task succeeded; values returned by a
    task reach the next one unchanged. *)

Inductive stage : Type :=
| CONNECTIVITY_CHECK | EXTRACT | TRANSFORM | LOAD | QUALITY_CHECK.

Definition stage_index (s : stage) : nat :=
  match s with
  | CONNECTIVITY_CHECK => 0
  | EXTRACT => 1
  | TRANSFORM => 2
  | LOAD => 3
  | QUALITY_CHECK => 4
  end.

Inductive event : Type :=
| Try (s : stage) (try_number : nat)
| RetryWait (s : stage) (seconds : Z).

Definition event_stage (ev : event) : stage :=
  match ev with Try s _ | RetryWait s _ => s end.

Definition is_try (s : stage) (ev : event) : bool :=
  match ev with
  | Try s' _ => bool_decide (stage_index s' = stage_index s)
  | RetryWait _ _ => false
  end.

(** How often stage [s] was started according to a journal. *)
Definition tries (s : stage) (journal : list event) : nat :=
  length (List.filter (is_try s) journal).

Record state := {
  files : filesystem;
  stdout : list string;
  requests_made : nat;
}.

(** The network as the run sees it: the outcome of its n-th request. *)
Definition network := nat → http.

Definition fails_without_retry (e : exn) : bool :=
  match e with AirflowFailException => true | _ => false end.

Section Task.
Context {A : Type}.
Variable s : stage.
(** One execution of the task's callable. *)
Variable body : state → state * result A.

Fixpoint attempt (retries_left try_number : nat) (st : state) (journal : list event)
  : state * list event * result A :=
  let journal := (journal ++ [Try s try_number])%list in
  match body st with
  | (st', Ok a) => (st', journal, Ok a)
  | (st', Raise e) =>
      match retries_left with
      | S k =>
          if fails_without_retry e then (st', journal, Raise e)
          else attempt k (S try_number) st'
                 (journal ++ [RetryWait s (retry_delay default_args)])%list
      | O => (st', journal, Raise e)
      end
  end.

Definition run_task : state → list event → state * list event * result A :=
  attempt (retries default_args) 1.
End Task.

Definition on_files {A} (f : filesystem → result (filesystem * A)) (st : state)
  : state * result A :=
  match f (files st) with
  | Ok (fs, a) =>
      ({| files := fs; stdout := stdout st; requests_made := requests_made st |}, Ok a)
  | Raise e => (st, Raise e)
  end.

Definition next_request (st : state) : state :=
  {| files := files st; stdout := stdout st; requests_made := S (requests_made st) |}.

Definition check_body (net : network) (st : state) : state * result bool :=
  (next_request st, check_mbta_api (net (requests_made st))).

Definition extract_body (net : network) (run : stamp) (st : state) : state * result string :=
  on_files (extract_mbta_predictions (net (requests_made st)) run) (next_request st).

Definition transform_body (raw_path : string) (run : stamp) : state → state * result string :=
  on_files (transform_mbta_data raw_path run).

Definition load_body (clean_path : string) : state → state * result nat :=
  on_files (load_mbta_to_warehouse clean_path).

Definition quality_body (loaded_rows : nat) (st : state) : state * result unit :=
  match mbta_data_quality_check (Z.of_nat loaded_rows) (stdout st) with
  | Ok (out, u) =>
      ({| files := files st; stdout := out; requests_made := requests_made st |}, Ok u)
  | Raise e => (st, Raise e)
  end.

Inductive dag_state : Type :=
| SUCCESS
| FAILED (s : stage) (e : exn).

Definition run_outcome : Type := state * list event * dag_state.

(** [upstream >> task]: the task runs when its upstream succeeded, and the
    run is failed at the first task that fails. *)
Definition stage_then {A} (s : stage) (body : state → state * result A)
    (downstream : A → state → list event → run_outcome)
    (st : state) (journal : list event) : run_outcome :=
  match run_task s body st journal with
  | (st', journal', Ok a) => downstream a st' journal'
  | (st', journal', Raise e) => (st', journal', FAILED s e)
  end.

(** [start >> api_ok >> raw >> clean >> loaded_rows >> dq >> end] *)
Definition run_dag (net : network) (run : stamp) (st : state) : run_outcome :=
  stage_then CONNECTIVITY_CHECK (check_body net) (λ _,
  stage_then EXTRACT (extract_body net run) (λ raw,
  stage_then TRANSFORM (transform_body raw run) (λ clean,
  stage_then LOAD (load_body clean) (λ loaded_rows,
  stage_then QUALITY_CHECK (quality_body loaded_rows) (λ _ st' journal,
  (st', journal, SUCCESS)))))) st [].

(** ** Reading a payload the way the JSON:API describes it *)

(** A member of an object, null when it is absent or when the value is not
    an object. *)
Definition field (o : json) (key : string) : json :=
  match o with
  | JObj members => member members key JNull
  | _ => JNull
  end.

(** The members of an object, none for any other value. *)
Definition members_of (v : json) : list (string * json) :=
  match v with JObj members => members | _ => [] end.

(** An attribute of an entity. *)
Definition attribute (entity : json) (key : string) : json :=
  field (field entity "attributes") key.

(** The identifier a relationship of a prediction points to. *)
Definition related_id (pred : json) (relationship : string) : json :=
  field (field (field (field pred "relationships") relationship) "data") "id".

(** The prediction entities and the included entities of a payload. *)
Definition predictions (payload : json) : result (list json) :=
  data ← get payload "data" (JArr []); iter data.

Definition included_entities (payload : json) : result (list json) :=
  included ← get payload "included" (JArr []); iter included.

Definition payload_lookups (payload : json) : result lookups :=
  items ← included_entities payload; build_lookups items no_lookups.

(** The type and the identifier of an included entity. *)
Definition entity_type (item : json) : json := field item "type".
Definition entity_id (item : json) : json := field item "id".

(** The binding an included route or trip entity contributes to its table. *)
Definition route_entry (item : json) : json * route_info :=
  (entity_id item,
   {| ri_route_id := entity_id item;
      ri_route_name := py_or (attribute item "long_name") (attribute item "short_name") |}).

Definition trip_entry (item : json) : json * trip_info :=
  (entity_id item,
   {| ti_trip_id := entity_id item;
      ti_direction_id := attribute item "direction_id";
      ti_headsign := attribute item "headsign" |}).

Definition is_route (item : json) : bool := eq_str (entity_type item) "route".
Definition is_trip (item : json) : bool := eq_str (entity_type item) "trip".

(** *** Well-formed payloads

    The shape the feed documents: [data] and [included] are arrays of
    resource objects; [attributes], [relationships], a relationship and its
    [data] are objects when present (absent and null are the same); a
    resource identifier is a string; an included resource carries its
    identifier; [delay] is null or a number of seconds that fits a float. *)

Definition is_object (v : json) : bool :=
  match v with JObj _ => true | _ => false end.

Definition is_string (v : json) : bool :=
  match v with JStr _ => true | _ => false end.

Definition object_or_null (v : json) : bool :=
  match v with JNull | JObj _ => true | _ => false end.

Definition string_or_null (v : json) : bool :=
  match v with JNull | JStr _ => true | _ => false end.

Definition delay_in_range (v : json) : bool :=
  match v with
  | JNull => true
  | JInt n => is_ok (float_of_int n)
  | _ => false
  end.

Definition well_formed_relationship (rel : json) : bool :=
  object_or_null rel && object_or_null (field rel "data")
  && string_or_null (field (field rel "data") "id").

Definition well_formed_prediction (pred : json) : bool :=
  is_object pred
  && object_or_null (field pred "attributes")
  && delay_in_range (attribute pred "delay")
  && object_or_null (field pred "relationships")
  && well_formed_relationship (field (field pred "relationships") "route")
  && well_formed_relationship (field (field pred "relationships") "trip").

Definition well_formed_included (item : json) : bool :=
  is_object item && is_string (entity_id item)
  && object_or_null (field item "attributes").

Definition well_formed_payload (payload : json) : bool :=
  match payload with
  | JObj members =>
      match member members "data" (JArr []), member members "included" (JArr []) with
      | JArr data, JArr included =>
          forallb well_formed_prediction data && forallb well_formed_included included
      | _, _ => false
      end
  | _ => false
  end.

(** A relationship of a prediction is absent: the prediction has no
    relationships, or they do not mention it, or it is null. *)
Definition relationship_absent (pred : json) (relationship : string) : bool :=
  is_none (field (field pred "relationships") relationship).

(** No included entity of the given type has the identifier [id]. *)
Definition no_match (items : list json) (type : string) (id : json) : bool :=
  forallb (λ item, negb (eq_str (entity_type item) type && key_eqb (entity_id item) id)) items.

(** *** What a task leaves behind *)

(** The outcome of a transformation as seen from outside: the path it
    returns and the file found there afterwards. *)
Definition clean_output (m : result (filesystem * string)) : result (string * option file) :=
  (λ out, (out.2, out.1 !! out.2)) <$> m.

(** *** Successive loads *)

(** The rows of the CSV file at a path, none when there is no such file. *)
Definition rows_at (path : string) (fs : filesystem) : list row :=
  match fs !! path with
  | Some (CsvFile df) => records df
  | _ => []
  end.

Definition warehouse_rows : filesystem → list row := rows_at warehouse_path.

(** *** What pd.read_csv makes of a file

    [read_csv] above gives back the frame that [to_csv] wrote. pandas parses
    the text of the file, and what it gets is a function of the file but
    not always that frame: it reads NA as a missing value, a run of digits
    as a number, and so on. The Loader is given here once more, line by
    line as above, with what [pd.read_csv] makes of a file as a parameter,
    so that statements about it hold whatever the parser does. *)

Definition csv_reader := file → result DataFrame.

Definition read_csv_as (reader : csv_reader) (path : string) (fs : filesystem)
  : result DataFrame :=
  match fs !! path with
  | None => Raise FileNotFoundError
  | Some f => reader f
  end.

Definition load_mbta_to_warehouse_as (reader : csv_reader) (clean_path : string)
    (fs : filesystem) : result (filesystem * nat) :=
  df_clean ← read_csv_as reader clean_path fs;
  let loaded_rows := len df_clean in
  df_all ← (if exists_path warehouse_path fs
            then df_existing ← read_csv_as reader warehouse_path fs;
                 Ok (concat df_existing df_clean)
            else Ok df_clean);
  Ok (to_csv df_all warehouse_path fs, loaded_rows).

(** The reader that gives back what was written: with it, [read_csv_as] is
    [read_csv]. *)
Definition written_frame : csv_reader :=
  λ f, match f with
       | CsvFile df =>
           if bool_decide (columns df = []) then Raise EmptyDataError else Ok df
       | JsonFile _ => Raise ParserError
       end.





(** *** Payloads used below *)

(** The end-to-end scenario: a prediction delayed by 120 s on a resolvable
    route and trip, one without a delay, one with delay 0 and no
    relationships. *)
Definition scenario_predictions : list json :=
  [ JObj [("id", JStr "prediction-1"); ("type", JStr "prediction");
          ("attributes", JObj [("delay", JInt 120); ("status", JStr "Delayed");
                               ("departure_time", JStr "2025-01-01T06:10:00-05:00")]);
          ("relationships", JObj [
             ("route", JObj [("data", JObj [("id", JStr "CR-Fitchburg"); ("type", JStr "route")])]);
             ("trip", JObj [("data", JObj [("id", JStr "trip-1"); ("type", JStr "trip")])])])];
    JObj [("id", JStr "prediction-2"); ("type", JStr "prediction");
          ("attributes", JObj [("delay", JNull)]);
          ("relationships", JObj [
             ("route", JObj [("data", JObj [("id", JStr "CR-Fitchburg"); ("type", JStr "route")])])])];
    JObj [("id", JStr "prediction-3"); ("type", JStr "prediction");
          ("attributes", JObj [("delay", JInt 0)])] ].

Definition scenario_route : json :=
  JObj [("type", JStr "route"); ("id", JStr "CR-Fitchburg");
        ("attributes", JObj [("long_name", JStr "Fitchburg Line"); ("short_name", JStr "")])].

Definition scenario_trip : json :=
  JObj [("type", JStr "trip"); ("id", JStr "trip-1");
        ("attributes", JObj [("headsign", JStr "Boston"); ("direction_id", JInt 1)])].

Definition scenario : json :=
  JObj [("data", JArr scenario_predictions);
        ("included", JArr [scenario_route; scenario_trip])].

(** An included entity that is neither a route nor a trip. *)
Definition scenario_stop : json :=
  JObj [("type", JStr "stop"); ("id", JStr "place-north");
        ("attributes", JObj [("name", JStr "North Station")])].

Definition scenario_run : stamp := Some "2025-01-01T06:00:00+00:00".

Definition scenario_frame : DataFrame :=
  {| columns := row_keys;
     records :=
       [ {| route_id := JStr "CR-Fitchburg"; route_name := JStr "Fitchburg Line";
            trip_id := JStr "trip-1"; headsign := JStr "Boston";
            direction_id := JInt 1; status := JStr "Delayed";
            delay_seconds := JInt 120; delay_minutes := Some 2%float;
            departure_time := JStr "2025-01-01T06:10:00-05:00";
            execution_date := scenario_run |};
         {| route_id := JNull; route_name := JNull;
            trip_id := JNull; headsign := JNull;
            direction_id := JNull; status := JNull;
            delay_seconds := JInt 0; delay_minutes := Some 0%float;
            departure_time := JNull;
            execution_date := scenario_run |} ] |}.

(** A delayed prediction on a route that has neither a long nor a short
    name. *)
Definition unnamed_route : json :=
  JObj [("type", JStr "route"); ("id", JStr "CR-Fitchburg"); ("attributes", JObj [])].

Definition unnamed_route_payload : json :=
  JObj [("data", JArr [
    JObj [("attributes", JObj [("delay", JInt 60)]);
          ("relationships", JObj [
             ("route", JObj [("data", JObj [("id", JStr "CR-Fitchburg")])])])]]);
   ("included", JArr [unnamed_route])].

(** A payload without prediction entities. *)
Definition no_predictions : json := JObj [("data", JArr []); ("included", JArr [])].

Definition scenario_raw_path : string := raw_path_of scenario_run.

(** The file system after the Extractor stored the scenario, and after the
    Transformer ran on it. *)
Definition scenario_fs : filesystem := {[ scenario_raw_path := JsonFile scenario ]}.

Definition scenario_fs_clean : filesystem :=
  <[clean_path_of scenario_run := CsvFile scenario_frame]> scenario_fs.

(** The file system after the Extractor stored a payload without
    predictions, and after the Transformer ran on it. *)
Definition quiet_fs : filesystem := {[ scenario_raw_path := JsonFile no_predictions ]}.

Definition quiet_fs_clean : filesystem :=
  <[clean_path_of scenario_run := CsvFile {| columns := []; records := [] |}]> quiet_fs.

(** *** Journals *)

(** The waits of a journal all last [retry_delay]. *)
Definition waits_retry_delay (journal : list event) : Prop :=
  Forall (λ ev, match ev with
                | RetryWait _ seconds => seconds = retry_delay default_args
                | Try _ _ => True
                end) journal.

(** A network on which every request is answered with status 503. *)
Definition unavailable : network :=
  λ _ _, Ok {| status_code := 503; json_body := Raise JSONDecodeError |}.

(** A network that serves a fixed payload. *)
Definition serving (payload : json) : network :=
  λ _ _, Ok {| status_code := 200; json_body := Ok payload |}.

Definition fresh : state := {| files := ∅; stdout := []; requests_made := 0 |}.

(** The run on a feed that has no predictions: its journal and the state
    it ends in. *)
Definition quiet_journal : list event :=
  [Try CONNECTIVITY_CHECK 1; Try EXTRACT 1; Try TRANSFORM 1;
   Try LOAD 1; RetryWait LOAD 300; Try LOAD 2; RetryWait LOAD 300; Try LOAD 3].

Definition quiet_end : state :=
  {| files := quiet_fs_clean; stdout := []; requests_made := 2 |}.

(** *** The two requests of a run *)

Definition check_url : string := MBTA_PREDICTIONS_URL +:+ "&page[limit]=5".
Definition extract_url : string := MBTA_PREDICTIONS_URL +:+ "&page[limit]=500".

(** A feed that serves the scenario on every request. *)
Definition scenario_feed : http :=
  λ _, Ok {| status_code := 200; json_body := Ok scenario |}.

(** The file system after the Extractor ran on [scenario_feed] from an empty
    file system: the same as [scenario_fs]. *)
Definition extracted_fs : filesystem := json_dump scenario scenario_raw_path ∅.

(** *** Values the Transformer can work with *)


(** A prediction carries a delay. *)
Definition has_delay (pred : json) : bool := negb (is_none (attribute pred "delay")).




(** An included route entity without an identifier, and a delayed
    prediction without relationships. *)
Definition ghost_route : json :=
  JObj [("type", JStr "route"); ("attributes", JObj [("long_name", JStr "Ghost")])].

Definition ghost_prediction : json := JObj [("attributes", JObj [("delay", JInt 60)])].

Definition ghost_payload : json :=
  JObj [("data", JArr [ghost_prediction]); ("included", JArr [ghost_route])].

(** A delayed prediction whose route identifier is a list, in a payload
    without included entities. *)
Definition list_id_prediction : json :=
  JObj [("attributes", JObj [("delay", JInt 60)]);
        ("relationships", JObj [
           ("route", JObj [("data", JObj [("id", JArr [JInt 1; JInt 2])])])])].

Definition list_id_payload : json :=
  JObj [("data", JArr [list_id_prediction]); ("included", JArr [])].

(** A delayed prediction whose status is the text NA, the frame the
    Transformer makes of it, and the same frame with the status missing. *)
Definition na_payload : json :=
  JObj [("data", JArr [JObj [("attributes", JObj [("delay", JInt 60);
                                                   ("status", JStr "NA")])]]);
        ("included", JArr [])].

Definition na_row (st : json) : row :=
  {| route_id := JNull; route_name := JNull; trip_id := JNull; headsign := JNull;
     direction_id := JNull; status := st;
     delay_seconds := JInt 60; delay_minutes := Some 1%float;
     departure_time := JNull; execution_date := scenario_run |}.

Definition na_frame : DataFrame :=
  {| columns := row_keys; records := [na_row (JStr "NA")] |}.

(** A reader that does to a frame what pandas does to the text NA in a
    status cell: it reads it as a missing value. It agrees with pandas on
    the files used below; no more is claimed of it. *)
Definition status_read (r : row) : row :=
  {| route_id := route_id r; route_name := route_name r; trip_id := trip_id r;
     headsign := headsign r; direction_id := direction_id r;
     status := if eq_str (status r) "NA" then JNull else status r;
     delay_seconds := delay_seconds r; delay_minutes := delay_minutes r;
     departure_time := departure_time r; execution_date := execution_date r |}.

Definition reads_NA_as_missing : csv_reader :=
  λ f, match f with
       | CsvFile df =>
           if bool_decide (columns df = []) then Raise EmptyDataError
           else Ok {| columns := columns df; records := status_read <$> records df |}
       | JsonFile _ => Raise ParserError
       end.

(** The file system after the Transformer ran on [na_payload], after one
    load with that reader, and after a second load of the same artifact. *)
Definition na_fs : filesystem := {[ clean_path_of scenario_run := CsvFile na_frame ]}.

Definition na_fs_loaded : filesystem :=
  <[warehouse_path := CsvFile {| columns := row_keys; records := [na_row JNull] |}]> na_fs.


(** A payload in which one prediction has a delay that is not a number. *)
Definition spoiled_payload : json :=
  JObj [("data", JArr (scenario_predictions
                       ++ [JObj [("attributes", JObj [("delay", JStr "late")])]]));
        ("included", JArr [scenario_route; scenario_trip])].

(** *** The shape of a journal *)

Definition pipeline : list stage :=
  [CONNECTIVITY_CHECK; EXTRACT; TRANSFORM; LOAD; QUALITY_CHECK].

(** The journal of [count] attempts of a stage, numbered from [first], with
    a wait of [retry_delay] before each retry. *)
Fixpoint attempts_journal (s : stage) (first count : nat) : list event :=
  match count with
  | 0 => []
  | S k =>
      Try s first ::
      match k with
      | 0 => []
      | S _ => RetryWait s (retry_delay default_args) :: attempts_journal s (S first) k
      end
  end.

(** [failures body k st st'] : [k] executions of [body] in a row, starting
    in [st], each ended on an exception that allows a retry, and left the
    state [st']. *)
Inductive failures {A} (body : state → state * result A) : nat → state → state → Prop :=
| failures_none st : failures body 0 st st
| failures_more k st st1 st2 e :
    body st = (st1, Raise e) →
    fails_without_retry e = false →
    failures body k st1 st2 →
    failures body (S k) st st2.

(** A feed that answers the first request of a run and then serves a body
    that is not JSON. *)
Definition garbled : network :=
  λ _ _, Ok {| status_code := 200; json_body := Raise JSONDecodeError |}.

(** The run on that feed: the connectivity check passes, the Extractor is
    started three times and the run is FAILED. *)
Definition garbled_journal : list event :=
  [Try CONNECTIVITY_CHECK 1;
   Try EXTRACT 1; RetryWait EXTRACT 300; Try EXTRACT 2; RetryWait EXTRACT 300;
   Try EXTRACT 3].

Definition garbled_end : state := {| files := ∅; stdout := []; requests_made := 4 |}.

(** A computation that, when it raises, raises an exception that allows a
    retry. *)
Definition retryable {A} (m : result A) : Prop :=
  ∀ e, m = Raise e → fails_without_retry e = false.

(** *** Runs, told as a relation *)

(** A task is started [k] times from the state [st]: the first [k - 1]
    executions fail on exceptions that allow a retry, the last one leaves
    the state [st'] and the result [r], and the retries are used up when
    [r] is such an exception too. *)
Definition task_run {A} (body : state → state * result A)
    (st : state) (k : nat) (st' : state) (r : result A) : Prop :=
  (1 ≤ k ≤ 1 + retries default_args)%nat
  ∧ ∃ st0,
      failures body (k - 1) st st0
      ∧ body st0 = (st', r)
      ∧ (∀ e, r = Raise e → fails_without_retry e = false →
              k = 1 + retries default_args).

(** The runs of the DAG: the tasks in the order of the pipeline, each after
    the success of the one before, up to the first task that fails. *)
Inductive dag_run (net : network) (run : stamp) (st : state)
  : state → list event → dag_state → Prop :=
| check_failed k1 st1 e :
    task_run (check_body net) st k1 st1 (Raise e) →
    dag_run net run st st1
      (attempts_journal CONNECTIVITY_CHECK 1 k1)
      (FAILED CONNECTIVITY_CHECK e)
| extract_failed k1 st1 ok k2 st2 e :
    task_run (check_body net) st k1 st1 (Ok ok) →
    task_run (extract_body net run) st1 k2 st2 (Raise e) →
    dag_run net run st st2
      (attempts_journal CONNECTIVITY_CHECK 1 k1 ++ attempts_journal EXTRACT 1 k2)
      (FAILED EXTRACT e)
| transform_failed k1 st1 ok k2 st2 raw k3 st3 e :
    task_run (check_body net) st k1 st1 (Ok ok) →
    task_run (extract_body net run) st1 k2 st2 (Ok raw) →
    task_run (transform_body raw run) st2 k3 st3 (Raise e) →
    dag_run net run st st3
      (attempts_journal CONNECTIVITY_CHECK 1 k1 ++ attempts_journal EXTRACT 1 k2
       ++ attempts_journal TRANSFORM 1 k3)
      (FAILED TRANSFORM e)
| load_failed k1 st1 ok k2 st2 raw k3 st3 clean k4 st4 e :
    task_run (check_body net) st k1 st1 (Ok ok) →
    task_run (extract_body net run) st1 k2 st2 (Ok raw) →
    task_run (transform_body raw run) st2 k3 st3 (Ok clean) →
    task_run (load_body clean) st3 k4 st4 (Raise e) →
    dag_run net run st st4
      (attempts_journal CONNECTIVITY_CHECK 1 k1 ++ attempts_journal EXTRACT 1 k2
       ++ attempts_journal TRANSFORM 1 k3 ++ attempts_journal LOAD 1 k4)
      (FAILED LOAD e)
| quality_failed k1 st1 ok k2 st2 raw k3 st3 clean k4 st4 loaded_rows k5 st5 e :
    task_run (check_body net) st k1 st1 (Ok ok) →
    task_run (extract_body net run) st1 k2 st2 (Ok raw) →
    task_run (transform_body raw run) st2 k3 st3 (Ok clean) →
    task_run (load_body clean) st3 k4 st4 (Ok loaded_rows) →
    task_run (quality_body loaded_rows) st4 k5 st5 (Raise e) →
    dag_run net run st st5
      (attempts_journal CONNECTIVITY_CHECK 1 k1 ++ attempts_journal EXTRACT 1 k2
       ++ attempts_journal TRANSFORM 1 k3 ++ attempts_journal LOAD 1 k4
       ++ attempts_journal QUALITY_CHECK 1 k5)
      (FAILED QUALITY_CHECK e)
| succeeded k1 st1 ok k2 st2 raw k3 st3 clean k4 st4 loaded_rows k5 st5 u :
    task_run (check_body net) st k1 st1 (Ok ok) →
    task_run (extract_body net run) st1 k2 st2 (Ok raw) →
    task_run (transform_body raw run) st2 k3 st3 (Ok clean) →
    task_run (load_body clean) st3 k4 st4 (Ok loaded_rows) →
    task_run (quality_body loaded_rows) st4 k5 st5 (Ok u) →
    dag_run net run st st5
      (attempts_journal CONNECTIVITY_CHECK 1 k1 ++ attempts_journal EXTRACT 1 k2
       ++ attempts_journal TRANSFORM 1 k3 ++ attempts_journal LOAD 1 k4
       ++ attempts_journal QUALITY_CHECK 1 k5)
      SUCCESS.

(** The journal in which the stages of the pipeline are started as often as
    [counts] says, one count per stage that was reached. *)
Definition journal_of (counts : list nat) : list event :=
  List.concat (zip_with (λ s k, attempts_journal s 1 k) pipeline counts).

(** How often each stage is started in a run with the given outcome, the
    Extractor being started [k] times. *)
Definition stage_counts (outcome : dag_state) (k : nat) : list nat :=
  match outcome with
  | SUCCESS => [1; k; 1; 1; 1]
  | FAILED CONNECTIVITY_CHECK _ => [1]
  | FAILED EXTRACT _ => [1; k]
  | FAILED TRANSFORM _ => [1; k; 1 + retries default_args]
  | FAILED LOAD _ => [1; k; 1; 1 + retries default_args]
  | FAILED QUALITY_CHECK _ => []
  end.



(** A feed whose first two answers to the Extractor cannot be decoded and
    whose third answer is the scenario. The connectivity check takes the
    request before. *)
Definition flaky : network :=
  λ n _, if bool_decide (n = 3)
         then Ok {| status_code := 200; json_body := Ok scenario |}
         else Ok {| status_code := 200; json_body := Raise JSONDecodeError |}.

Definition flaky_journal : list event :=
  [Try CONNECTIVITY_CHECK 1;
   Try EXTRACT 1; RetryWait EXTRACT 300; Try EXTRACT 2; RetryWait EXTRACT 300;
   Try EXTRACT 3;
   Try TRANSFORM 1; Try LOAD 1; Try QUALITY_CHECK 1].

Definition flaky_end : state :=
  {| files := <[warehouse_path := CsvFile scenario_frame]> scenario_fs_clean;
     stdout := ["Data quality check passed. Delayed trips loaded: 2"];
     requests_made := 4 |}.

(** * Properties *)

(** ** The result monad *)

Lemma bind_ok {A B} (m : result A) (k : A → result B) (b : B) :
  m ≫= k = Ok b → ∃ a, m = Ok a ∧ k a = Ok b.
Proof. destruct m as [a|e]; simpl; [eauto | discriminate]. Qed.

Lemma fmap_ok {A B} (g : A → B) (m : result A) (b : B) :
  g <$> m = Ok b → ∃ a, m = Ok a ∧ b = g a.
Proof. destruct m as [a|e]; simpl; [|discriminate]. intros [= <-]. eauto. Qed.

(** Split a successful chain of binds into its steps. *)
Ltac ok_steps H :=
  repeat match type of H with
  | _ ≫= _ = Ok _ =>
      let a := fresh "v" in
      let E := fresh "E" in
      apply bind_ok in H as (a & E & H)
  | (let x := _ in _) = Ok _ => cbv zeta in H
  end.

(** ** Objects and their members *)

(** Either the key is absent and [member] returns the default, or it is
    present and the default does not matter. *)
Lemma member_cases members key d :
  (∀ d', member members key d' = d') ∨ (∀ d', member members key d' = member members key d).
Proof.
  revert d. induction members as [|[k v] rest IH]; intros d; simpl.
  - left. reflexivity.
  - destruct (String.eqb k key); [right; reflexivity | apply IH].
Qed.

(** The default [{}] of [o.get(key, {}) or {}] plays no role: an absent key
    and a null value both end as the empty dict. *)
Lemma member_or_empty members key :
  py_or (member members key empty_dict) empty_dict
  = py_or (member members key JNull) empty_dict.
Proof.
  destruct (member_cases members key JNull) as [Habs|Hpres].
  - by rewrite !Habs.
  - by rewrite (Hpres empty_dict).
Qed.

(** [v or {}] is the object [v] itself, the empty dict for a falsy [v], and
    otherwise a value without [get]. *)
Lemma or_empty_cases v :
  py_or v empty_dict = JObj (members_of v)
  ∨ (∀ key d, get (py_or v empty_dict) key d = Raise AttributeError).
Proof.
  unfold py_or. destruct v as [| [] | n | s | items | ms]; simpl; auto.
  - destruct (n =? 0)%Z; simpl; auto.
  - destruct (String.eqb s ""); simpl; auto.
  - case_bool_decide; simpl; auto.
  - case_bool_decide; simpl; subst; auto.
Qed.

Lemma get_or_empty v key d a :
  get (py_or v empty_dict) key d = Ok a → a = member (members_of v) key d.
Proof.
  destruct (or_empty_cases v) as [-> | Hfail].
  - simpl. congruence.
  - rewrite Hfail. discriminate.
Qed.

Lemma get_ok o key d a : get o key d = Ok a → ∃ members, o = JObj members ∧ a = member members key d.
Proof. destruct o; simpl; try discriminate. intros [= <-]. eauto. Qed.

Lemma field_members o key : field o key = member (members_of o) key JNull.
Proof. by destruct o. Qed.

Lemma members_default members key :
  members_of (member members key empty_dict) = members_of (member members key JNull).
Proof.
  destruct (member_cases members key JNull) as [Habs|Hpres].
  - by rewrite !Habs.
  - by rewrite (Hpres empty_dict).
Qed.

(** [x.get(key, {}) or {}] followed by a [get]: the member is read from the
    object stored under [key], if there is one. *)
Lemma get_in_member o key k d a v :
  get o key empty_dict = Ok v →
  get (py_or v empty_dict) k d = Ok a →
  a = member (members_of (field o key)) k d.
Proof.
  intros Ho Hk.
  apply get_ok in Ho as (members & -> & ->).
  apply get_or_empty in Hk as ->.
  by rewrite members_default.
Qed.

(** ** Rows *)

(** What a row holds, in terms of the prediction it was built from. *)
Lemma pred_row_ok lk run pred r :
  pred_row lk run pred = Ok r →
  route_id r = related_id pred "route"
  ∧ trip_id r = related_id pred "trip"
  ∧ route_name r = info_get ri_route_name (find (route_id r) (route_lookup lk))
  ∧ headsign r = info_get ti_headsign (find (trip_id r) (trip_lookup lk))
  ∧ direction_id r = info_get ti_direction_id (find (trip_id r) (trip_lookup lk))
  ∧ status r = attribute pred "status"
  ∧ delay_seconds r = attribute pred "delay"
  ∧ departure_time r = attribute pred "departure_time"
  ∧ execution_date r = run
  ∧ (if is_none (delay_seconds r) then delay_minutes r = None
     else ∃ f, div_60 (delay_seconds r) = Ok f ∧ delay_minutes r = Some f).
Proof.
  unfold pred_row. intros H. ok_steps H.
  injection H as <-. simpl.
  assert (if is_none v7 then v12 = None
          else ∃ f, div_60 v7 = Ok f ∧ v12 = Some f) as Hminutes.
  { destruct (is_none v7); [by injection E12 as <- |].
    apply fmap_ok in E12 as (f & Hf & ->). eauto. }
  clear E12. revert Hminutes.
  pose proof (get_in_member _ _ _ _ _ _ E E7) as ->.
  pose proof (get_in_member _ _ _ _ _ _ E E8) as ->.
  pose proof (get_in_member _ _ _ _ _ _ E E9) as ->.
  pose proof (get_in_member _ _ _ _ _ _ E0 E1) as Hrr.
  pose proof (get_in_member _ _ _ _ _ _ E0 E2) as Htr.
  apply get_or_empty in E3 as ->. apply get_or_empty in E4 as ->.
  apply get_or_empty in E5 as ->. apply get_or_empty in E6 as ->.
  unfold table_get in E10, E11.
  destruct (hashable _) in E10; [|discriminate].
  destruct (hashable _) in E11; [|discriminate].
  injection E10 as <-. injection E11 as <-.
  unfold related_id, attribute. rewrite !field_members.
  rewrite !field_members in Hrr, Htr.
  rewrite Hrr, Htr, !members_default.
  intros Hminutes. repeat split; try reflexivity. exact Hminutes.
Qed.

Lemma build_rows_ok lk run preds rows :
  build_rows lk run preds = Ok rows →
  Forall2 (λ pred r, pred_row lk run pred = Ok r) preds rows.
Proof.
  revert rows. induction preds as [|pred rest IH]; intros rows H; simpl in H.
  - injection H as <-. constructor.
  - ok_steps H. injection H as <-. constructor; auto.
Qed.

Lemma Forall2_filter {A B} (R : A → B → Prop) (f : A → bool) (g : B → bool) xs ys :
  Forall2 R xs ys →
  (∀ x y, R x y → f x = g y) →
  Forall2 R (List.filter f xs) (List.filter g ys).
Proof.
  intros H Hfg. induction H as [|x y xs ys Hxy _ IH]; simpl; [constructor|].
  rewrite (Hfg x y Hxy). destruct (g y); [constructor|]; auto.
Qed.

Lemma Forall2_with_right {A B} (R : A → B → Prop) (P : B → Prop) xs ys :
  Forall2 R xs ys → Forall P ys → Forall2 (λ x y, R x y ∧ P y) xs ys.
Proof.
  intros H. induction H as [|x y xs ys Hxy _ IH]; intros HP; [constructor|].
  apply Forall_cons in HP as [Hy HP]. constructor; auto.
Qed.

Lemma Forall_filter_true {A} (f : A → bool) xs :
  Forall (λ x, f x = true) (List.filter f xs).
Proof.
  induction xs as [|x xs IH]; simpl; [constructor|].
  destruct (f x) eqn:Hx; [constructor|]; auto.
Qed.

(** ** The clean frame *)

(** The steps of a successful transformation. *)
Lemma clean_frame_ok payload run df :
  clean_frame payload run = Ok df →
  ∃ lk preds rows,
    payload_lookups payload = Ok lk
    ∧ predictions payload = Ok preds
    ∧ build_rows lk run preds = Ok rows
    ∧ records df = List.filter (λ r, notna (delay_seconds r)) rows
    ∧ columns df = match preds with [] => [] | _ :: _ => row_keys end.
Proof.
  unfold clean_frame, payload_lookups, predictions, included_entities.
  intros H. ok_steps H.
  exists v2, v3, v4. rewrite E, E0. simpl. rewrite E1. simpl.
  repeat split; try assumption.
  - destruct v4 as [|r rows]; simpl in H.
    + by injection H as <-.
    + unfold keep_delay_notna in H. simpl in H. by injection H as <-.
  - destruct v3 as [|pred preds]; simpl in E4.
    + injection E4 as <-. simpl in H. by injection H as <-.
    + ok_steps E4. injection E4 as <-. unfold keep_delay_notna in H.
      simpl in H. by injection H as <-.
Qed.

(** C1. Whenever the Transformer completes, the rows it retains correspond
    one to one, in source order, to the prediction entities whose delay
    attribute is non-null. The row retained for a prediction has a non-null
    delay_seconds; its delay_minutes is the quotient, in 64-bit floats, of
    its delay_seconds by 60.0, which is the quotient of the delay of the
    prediction by 60.0; and it carries the status and the departure time of
    that prediction. Predictions with a null delay have no row; a delay of 0
    is non-null and is kept. Nothing is said about the representation of the
    delay_seconds cell beyond its quotient: the statement holds alike of the
    integer and of the float nearest to it. *)
Theorem retained_rows_are_the_delayed_predictions payload run df :
  clean_frame payload run = Ok df →
  ∃ preds,
    predictions payload = Ok preds
    ∧ Forall2
        (λ pred r,
           is_none (delay_seconds r) = false
           ∧ status r = attribute pred "status"
           ∧ departure_time r = attribute pred "departure_time"
           ∧ ∃ f, div_60 (attribute pred "delay") = Ok f
                  ∧ div_60 (delay_seconds r) = Ok f
                  ∧ delay_minutes r = Some f)
        (List.filter has_delay preds)
        (records df).
Proof.
  intros (lk & preds & rows & _ & Hpreds & Hrows & -> & _)%clean_frame_ok.
  exists preds. split; [assumption|]. apply build_rows_ok in Hrows.
  assert (Forall2 (λ pred r, pred_row lk run pred = Ok r)
            (List.filter has_delay preds)
            (List.filter (λ r, notna (delay_seconds r)) rows)) as Hkept.
  { apply Forall2_filter; [assumption|].
    intros pred r (_ & _ & _ & _ & _ & _ & Hdelay & _)%pred_row_ok.
    unfold has_delay, notna. by rewrite Hdelay. }
  eapply Forall2_impl.
  { apply (Forall2_with_right _ (λ r, notna (delay_seconds r) = true) _ _ Hkept),
      Forall_filter_true. }
  simpl. intros pred r [Hrow Hnotna].
  apply pred_row_ok in Hrow
    as (_ & _ & _ & _ & _ & Hstatus & Hdelay & Htime & _ & Hminutes).
  unfold notna in Hnotna.
  destruct (is_none (delay_seconds r)) eqn:Hnone; [discriminate|].
  destruct Hminutes as (f & Hf & Hm).
  repeat split; try assumption.
  exists f. rewrite <- Hdelay. auto.
Qed.

(** ** The lookup tables *)

Lemma get_null_ok o key a : get o key JNull = Ok a → a = field o key.
Proof. by intros (members & -> & ->)%get_ok. Qed.

Lemma get_attribute item key a v :
  get item "attributes" empty_dict = Ok v →
  get (py_or v empty_dict) key JNull = Ok a →
  a = attribute item key.
Proof.
  intros Hv Ha. rewrite (get_in_member _ _ _ _ _ _ Hv Ha).
  unfold attribute. symmetry. apply field_members.
Qed.

Lemma route_not_trip item : is_route item = true → is_trip item = false.
Proof.
  unfold is_route, is_trip. destruct (entity_type item); simpl; try done.
  intros ->%String.eqb_eq. reflexivity.
Qed.

(** An included entity adds its binding in front of the table of its type
    and leaves the other table alone; an entity of another type changes
    nothing. *)
Lemma add_included_ok item lk lk' :
  add_included item lk = Ok lk' →
  route_lookup lk'
  = (if is_route item then route_entry item :: route_lookup lk else route_lookup lk)
  ∧ trip_lookup lk'
  = (if is_trip item then trip_entry item :: trip_lookup lk else trip_lookup lk).
Proof.
  unfold add_included. intros H. ok_steps H.
  apply get_null_ok in E as ->. pose proof (get_null_ok _ _ _ E0) as ->.
  fold (entity_type item) in H. fold (entity_id item) in H.
  fold (is_route item) in H. fold (is_trip item) in H.
  destruct (is_route item) eqn:Hroute.
  - rewrite (route_not_trip _ Hroute). ok_steps H. injection H as <-. simpl.
    pose proof (get_attribute _ _ _ _ E1 E) as ->.
    pose proof (get_attribute _ _ _ _ E1 E2) as ->.
    unfold setitem in E3. destruct (hashable _); [|discriminate].
    by injection E3 as <-.
  - destruct (is_trip item) eqn:Htrip.
    + ok_steps H. injection H as <-. simpl.
      pose proof (get_attribute _ _ _ _ E1 E) as ->.
    pose proof (get_attribute _ _ _ _ E1 E2) as ->.
      unfold setitem in E3. destruct (hashable _); [|discriminate].
      by injection E3 as <-.
    + by injection H as <-.
Qed.

Lemma build_lookups_app xs ys lk :
  build_lookups (xs ++ ys) lk = build_lookups xs lk ≫= build_lookups ys.
Proof.
  revert lk. induction xs as [|x xs IH]; intros lk; simpl; [reflexivity|].
  destruct (add_included x lk); simpl; auto.
Qed.

(** The tables after the loop over [included]: the bindings of the route and
    of the trip entities, the last entity first. *)
Lemma build_lookups_ok items lk lk' :
  build_lookups items lk = Ok lk' →
  route_lookup lk' = (rev (route_entry <$> List.filter is_route items) ++ route_lookup lk)%list
  ∧ trip_lookup lk' = (rev (trip_entry <$> List.filter is_trip items) ++ trip_lookup lk)%list.
Proof.
  revert lk. induction items as [|item rest IH]; intros lk H; simpl in H.
  - by injection H as <-.
  - ok_steps H. apply add_included_ok in E as [Hr Ht].
    apply IH in H as [-> ->]. rewrite Hr, Ht. simpl.
    destruct (is_route item), (is_trip item); simpl; by rewrite <- ?app_assoc.
Qed.

(** Decide the comparisons of integers and strings in sight. *)
Ltac decide_eqb :=
  repeat match goal with
  | H : context [(?x =? ?y)%Z] |- _ => destruct (Z.eqb_spec x y)
  | |- context [(?x =? ?y)%Z] => destruct (Z.eqb_spec x y)
  | H : context [String.eqb ?x ?y] |- _ => destruct (String.eqb_spec x y)
  | |- context [String.eqb ?x ?y] => destruct (String.eqb_spec x y)
  end.

(** Keys that are equal find the same bindings. *)
Lemma key_eqb_compat k a b : key_eqb a b = true → key_eqb k a = key_eqb k b.
Proof.
  destruct k as [| [] | x | s | |], a as [| [] | y | t | |], b as [| [] | z | u | |];
    cbn [key_eqb Bool.eqb]; try done; intros H; decide_eqb;
    try done; try congruence; try lia.
Qed.

Section Find.
Context {V : Type}.
Implicit Types t : table V.

Lemma find_app q t1 t2 :
  find q (t1 ++ t2) = match find q t1 with Some v => Some v | None => find q t2 end.
Proof.
  induction t1 as [|[k v] t1 IH]; simpl; [reflexivity|].
  destruct (key_eqb k q); auto.
Qed.

Lemma find_none q t :
  forallb (λ kv, negb (key_eqb kv.1 q)) t = true → find q t = None.
Proof.
  induction t as [|[k v] t IH]; simpl; [reflexivity|].
  intros [Hk Ht]%andb_prop. apply negb_true_iff in Hk. rewrite Hk. auto.
Qed.
End Find.

(** No entity of the type matches: the table has no binding for the key. *)
Lemma no_match_route items q :
  no_match items "route" q = true →
  find q (rev (route_entry <$> List.filter is_route items)) = None.
Proof.
  intros H. apply find_none. unfold no_match in H. rewrite forallb_forall in *.
  intros [k v] Hin%in_rev%list_elem_of_In%list_elem_of_fmap.
  destruct Hin as (item & [= -> ->] & Hitem%list_elem_of_In%filter_In).
  destruct Hitem as [Hitem Hroute]. specialize (H item Hitem).
  unfold is_route in Hroute. rewrite Hroute in H. simpl in *. exact H.
Qed.

Lemma no_match_trip items q :
  no_match items "trip" q = true →
  find q (rev (trip_entry <$> List.filter is_trip items)) = None.
Proof.
  intros H. apply find_none. unfold no_match in H. rewrite forallb_forall in *.
  intros [k v] Hin%in_rev%list_elem_of_In%list_elem_of_fmap.
  destruct Hin as (item & [= -> ->] & Hitem%list_elem_of_In%filter_In).
  destruct Hitem as [Hitem Htrip]. specialize (H item Hitem).
  unfold is_trip in Htrip. rewrite Htrip in H. simpl in *. exact H.
Qed.

(** The binding of a route entity is the one found under its identifier,
    and under any key equal to it, unless a later route entity has an equal
    identifier. *)
Lemma find_route before item after q :
  is_route item = true →
  no_match after "route" (entity_id item) = true →
  key_eqb (entity_id item) q = true →
  find q (rev (route_entry <$> List.filter is_route (before ++ item :: after)))
  = Some (route_entry item).2.
Proof.
  intros Hroute Hafter Hq.
  rewrite List.filter_app. simpl. rewrite Hroute.
  rewrite fmap_app, rev_app_distr. simpl. rewrite <- app_assoc, find_app.
  rewrite no_match_route; [simpl; by rewrite Hq|].
  unfold no_match in *. rewrite forallb_forall in *.
  intros later Hin. rewrite <- (key_eqb_compat _ _ _ Hq). auto.
Qed.

(** The retained rows are as many as the predictions that carry a delay. *)
Lemma retained_count payload run df :
  clean_frame payload run = Ok df →
  ∃ preds,
    predictions payload = Ok preds
    ∧ length (List.filter (λ pred, negb (is_none (attribute pred "delay"))) preds)
      = length (records df).
Proof.
  intros (lk & preds & rows & Hlk & Hpreds & Hrows & -> & _)%clean_frame_ok.
  exists preds. split; [assumption|]. apply build_rows_ok in Hrows.
  eapply Forall2_length, Forall2_filter; [exact Hrows|].
  intros pred r (_ & _ & _ & _ & _ & _ & -> & _)%pred_row_ok. reflexivity.
Qed.

Lemma retained_rows_are_the_delayed_predictions_witness :
  clean_frame scenario scenario_run = Ok scenario_frame
  ∧ ∃ preds,
      predictions scenario = Ok preds
      ∧ Forall2
          (λ pred r,
             is_none (delay_seconds r) = false
             ∧ status r = attribute pred "status"
             ∧ departure_time r = attribute pred "departure_time"
             ∧ ∃ f, div_60 (attribute pred "delay") = Ok f
                    ∧ div_60 (delay_seconds r) = Ok f
                    ∧ delay_minutes r = Some f)
          (List.filter has_delay preds)
          (records scenario_frame).
Proof.
  split; [reflexivity|].
  apply (retained_rows_are_the_delayed_predictions scenario scenario_run scenario_frame).
  reflexivity.
Defined.

Lemma payload_lookups_ok payload lk :
  payload_lookups payload = Ok lk →
  ∃ items,
    included_entities payload = Ok items
    ∧ route_lookup lk = rev (route_entry <$> List.filter is_route items)
    ∧ trip_lookup lk = rev (trip_entry <$> List.filter is_trip items).
Proof.
  unfold payload_lookups. intros H. ok_steps H.
  apply build_lookups_ok in H as [Hr Ht]. simpl in Hr, Ht.
  rewrite app_nil_r in Hr, Ht. eauto.
Qed.

(** Every retained row is the row of some prediction. *)
Lemma retained_rows_ok payload run df :
  clean_frame payload run = Ok df →
  ∃ lk, payload_lookups payload = Ok lk
        ∧ Forall (λ r, ∃ pred, pred_row lk run pred = Ok r) (records df).
Proof.
  intros (lk & preds & rows & Hlk & _ & Hrows & -> & _)%clean_frame_ok.
  exists lk. split; [assumption|].
  apply build_rows_ok in Hrows. apply List.Forall_forall.
  intros r [Hin _]%filter_In.
  clear Hlk. induction Hrows as [|pred r' ps rs Hrow _ IH]; [done|].
  destruct Hin as [-> | Hin]; eauto.
Qed.

(** C2 (amended). The display name of an included route entity is its long
    name when that is non-empty and its short name otherwise; there is no
    fallback to the identifier, so a route without names resolves to null.
    Unless a later included route entity has an equal identifier, that name
    is the route_name of every retained row whose route_id is the
    identifier of the entity. *)
Theorem route_name_resolution payload run df before item after :
  clean_frame payload run = Ok df →
  included_entities payload = Ok (before ++ item :: after) →
  is_route item = true →
  no_match after "route" (entity_id item) = true →
  Forall (λ r, key_eqb (entity_id item) (route_id r) = true →
               route_name r
               = py_or (attribute item "long_name") (attribute item "short_name"))
         (records df).
Proof.
  intros (lk & Hlk & Hrows)%retained_rows_ok Hitems Hroute Hafter.
  apply payload_lookups_ok in Hlk as (items & Hitems' & Hrl & _).
  rewrite Hitems in Hitems'. injection Hitems' as <-.
  eapply Forall_impl; [exact Hrows|]. simpl.
  intros r [pred Hrow] Hkey.
  apply pred_row_ok in Hrow as (_ & _ & -> & _).
  by rewrite Hrl, (find_route _ _ _ _ Hroute Hafter Hkey).
Qed.

Lemma route_name_resolution_witness :
  clean_frame scenario scenario_run = Ok scenario_frame
  ∧ Forall (λ r, key_eqb (JStr "CR-Fitchburg") (route_id r) = true →
                 route_name r = JStr "Fitchburg Line")
           (records scenario_frame).
Proof.
  split; [reflexivity|].
  apply (route_name_resolution scenario scenario_run scenario_frame
           [] scenario_route [scenario_trip]); reflexivity.
Defined.

(** C2, as stated, fails: the route of [unnamed_route_payload] has neither
    name, and the row that references it has a null route_name, not the
    identifier of the route. *)
Lemma route_name_does_not_fall_back_to_id :
  attribute unnamed_route "long_name" = JNull
  ∧ attribute unnamed_route "short_name" = JNull
  ∧ entity_id unnamed_route = JStr "CR-Fitchburg"
  ∧ ∃ df, clean_frame unnamed_route_payload None = Ok df
          ∧ route_id <$> records df = [JStr "CR-Fitchburg"]
          ∧ route_name <$> records df = [JNull]
          ∧ route_name <$> records df ≠ [JStr "CR-Fitchburg"].
Proof.
  split; [reflexivity|]. split; [reflexivity|]. split; [reflexivity|].
  eexists. split; [reflexivity|]. simpl. by repeat split.
Qed.

(** ** Well-formed payloads are transformed without an exception *)

Lemma or_empty_object v :
  object_or_null v = true → py_or v empty_dict = JObj (members_of v).
Proof.
  destruct v as [| | | | |members]; try done.
  intros _. unfold py_or. simpl. case_bool_decide; by subst.
Qed.

(** [o.get(key, {}) or {}] when the member is an object, null or absent. *)
Lemma get_or_empty_object o key :
  is_object o = true →
  object_or_null (field o key) = true →
  ∃ v, get o key empty_dict = Ok v
       ∧ py_or v empty_dict = JObj (members_of (field o key)).
Proof.
  destruct o as [| | | | |members]; try done. simpl. intros _ Hobj.
  eexists. split; [reflexivity|].
  rewrite member_or_empty. by apply or_empty_object.
Qed.

Lemma add_included_total item lk :
  well_formed_included item = true → ∃ lk', add_included item lk = Ok lk'.
Proof.
  unfold well_formed_included. intros [[Hobj Hid]%andb_prop Hattrs]%andb_prop.
  destruct (get_or_empty_object item "attributes" Hobj Hattrs) as (v & Hv & Hor).
  unfold add_included. rewrite Hv. destruct item as [| | | | |members]; try done.
  simpl. rewrite Hor. simpl.
  unfold entity_id in Hid. simpl in Hid.
  destruct (member members "id" JNull); try done. simpl.
  destruct (eq_str _ "route"); simpl; [eauto|].
  destruct (eq_str _ "trip"); simpl; eauto.
Qed.

Lemma build_lookups_total items lk :
  forallb well_formed_included items = true → ∃ lk', build_lookups items lk = Ok lk'.
Proof.
  revert lk. induction items as [|item rest IH]; intros lk; simpl; [eauto|].
  intros [Hitem Hrest]%andb_prop.
  destruct (add_included_total item lk Hitem) as [lk1 ->]. simpl. auto.
Qed.

Lemma string_or_null_hashable v : string_or_null v = true → hashable v = true.
Proof. by destruct v. Qed.

Lemma delay_in_range_ok v :
  delay_in_range v = true →
  ∃ minutes, (if is_none v then Ok None else Some <$> div_60 v) = Ok minutes.
Proof.
  destruct v as [| | n | | |]; try done; simpl; [eauto|].
  destruct (float_of_int n); [simpl; eauto | done].
Qed.

Lemma pred_row_total lk run pred :
  well_formed_prediction pred = true → ∃ r, pred_row lk run pred = Ok r.
Proof.
  unfold well_formed_prediction, well_formed_relationship.
  intros H. repeat apply andb_prop in H as [H ?].
  unfold pred_row.
  destruct (get_or_empty_object pred "attributes") as (a & Ha & Hattrs); [done..|].
  destruct (get_or_empty_object pred "relationships") as (rel & Hr & Hrel); [done..|].
  rewrite Ha, Hr. cbn [mbind result_bind]. rewrite Hattrs, Hrel.
  cbn [get mbind result_bind].
  apply andb_prop in H1 as [[Hroute Hrdata]%andb_prop Hrid].
  apply andb_prop in H0 as [[Htrip Htdata]%andb_prop Htid].
  rewrite !member_or_empty, <- !field_members.
  rewrite (or_empty_object _ Hroute), (or_empty_object _ Htrip).
  cbn [get mbind result_bind]. rewrite <- !field_members.
  rewrite (or_empty_object _ Hrdata), (or_empty_object _ Htdata).
  cbn [get mbind result_bind]. rewrite <- !field_members.
  unfold table_get.
  rewrite (string_or_null_hashable _ Hrid), (string_or_null_hashable _ Htid).
  cbn [mbind result_bind]. fold (attribute pred "delay").
  destruct (delay_in_range_ok _ H3) as [minutes ->].
  cbn [mbind result_bind]. eauto.
Qed.

Lemma build_rows_total lk run preds :
  forallb well_formed_prediction preds = true → ∃ rows, build_rows lk run preds = Ok rows.
Proof.
  induction preds as [|pred rest IH]; simpl; [eauto|].
  intros [Hpred Hrest]%andb_prop.
  destruct (pred_row_total lk run pred Hpred) as [r ->].
  destruct (IH Hrest) as [rows ->]. simpl. eauto.
Qed.

Lemma well_formed_payload_ok payload :
  well_formed_payload payload = true →
  ∃ preds items,
    predictions payload = Ok preds
    ∧ included_entities payload = Ok items
    ∧ forallb well_formed_prediction preds = true
    ∧ forallb well_formed_included items = true.
Proof.
  destruct payload as [| | | | |members]; try done.
  unfold predictions, included_entities. simpl.
  destruct (member members "data" (JArr [])) as [| | | |data|]; try done.
  destruct (member members "included" (JArr [])) as [| | | |included|]; try done.
  intros [Hdata Hincluded]%andb_prop. simpl. eauto 6.
Qed.

Lemma keep_delay_notna_total rows :
  ∃ df, (let df := frame_of_rows rows in
         if negb (empty df) then keep_delay_notna df else Ok df) = Ok df.
Proof. destruct rows; simpl; eauto. Qed.

Lemma clean_frame_total payload run :
  well_formed_payload payload = true → ∃ df, clean_frame payload run = Ok df.
Proof.
  intros Hwf. destruct payload as [| | | | |members]; try done.
  unfold clean_frame. simpl in *.
  destruct (member members "data" (JArr [])) as [| | | |data|]; try done.
  destruct (member members "included" (JArr [])) as [| | | |included|]; try done.
  apply andb_prop in Hwf as [Hdata Hincluded]. simpl.
  destruct (build_lookups_total included no_lookups Hincluded) as [lk ->]. simpl.
  destruct (build_rows_total lk run data Hdata) as [rows ->]. simpl.
  apply keep_delay_notna_total.
Qed.

Lemma well_formed_no_null_id items type :
  forallb well_formed_included items = true → no_match items type JNull = true.
Proof.
  unfold no_match. rewrite !forallb_forall. intros H item Hin.
  specialize (H item Hin). unfold well_formed_included in H.
  apply andb_prop in H as [[_ Hid]%andb_prop _].
  destruct (entity_id item); try done. simpl. by rewrite andb_false_r.
Qed.








(** C6, as stated, fails in both of its parts. The prediction of
    [ghost_payload] has no route relationship, yet its row has a route_name:
    the included route that carries no id is stored under None, the
    identifier of an absent relationship. The route identifier of the
    prediction of [list_id_payload] matches no included entity, and the
    Transformer raises TypeError on it. *)
Lemma lookups_are_not_always_null_or_safe :
  relationship_absent ghost_prediction "route" = true
  ∧ (∃ df, clean_frame ghost_payload None = Ok df
           ∧ route_id <$> records df = [JNull]
           ∧ route_name <$> records df = [JStr "Ghost"]
           ∧ route_name <$> records df ≠ [JNull])
  ∧ no_match [] "route" (related_id list_id_prediction "route") = true
  ∧ clean_frame list_id_payload None = Raise TypeError.
Proof.
  split; [reflexivity|]. split.
  - eexists. split; [reflexivity|]. simpl. by repeat split.
  - split; reflexivity.
Qed.

(** ** Included entities of other types *)

Lemma add_included_other item lk :
  is_object item = true → is_route item = false → is_trip item = false →
  add_included item lk = Ok lk.
Proof.
  destruct item as [| | | | |members]; try done.
  unfold is_route, is_trip, entity_type, add_included. simpl.
  by intros _ -> ->.
Qed.

Lemma build_lookups_skip before x after lk :
  is_object x = true → is_route x = false → is_trip x = false →
  build_lookups (before ++ x :: after) lk = build_lookups (before ++ after) lk.
Proof.
  intros Hobj Hroute Htrip. rewrite !build_lookups_app.
  destruct (build_lookups before lk) as [lk1|e]; simpl; [|reflexivity].
  by rewrite add_included_other.
Qed.

(** C10. An included entity whose type is neither "route" nor "trip" is
    skipped: with or without it, the two lookup tables are the same and so is
    the outcome of the Transformer, every field of every row included. *)
Theorem other_included_types_are_ignored members members' before x after run :
  member members "included" (JArr []) = JArr (before ++ x :: after) →
  member members' "included" (JArr []) = JArr (before ++ after) →
  member members' "data" (JArr []) = member members "data" (JArr []) →
  is_object x = true → is_route x = false → is_trip x = false →
  payload_lookups (JObj members) = payload_lookups (JObj members')
  ∧ clean_frame (JObj members) run = clean_frame (JObj members') run.
Proof.
  intros Hwith Hwithout Hdata Hobj Hroute Htrip.
  unfold payload_lookups, included_entities, clean_frame. simpl.
  rewrite Hwith, Hwithout, Hdata. simpl.
  by rewrite (build_lookups_skip _ _ _ _ Hobj Hroute Htrip).
Qed.

Lemma other_included_types_are_ignored_witness :
  payload_lookups
    (JObj [("data", JArr scenario_predictions);
           ("included", JArr ([scenario_route] ++ scenario_stop :: [scenario_trip]))])
  = payload_lookups scenario
  ∧ clean_frame
      (JObj [("data", JArr scenario_predictions);
             ("included", JArr ([scenario_route] ++ scenario_stop :: [scenario_trip]))])
      scenario_run
    = clean_frame scenario scenario_run.
Proof.
  apply (other_included_types_are_ignored
           [("data", JArr scenario_predictions);
            ("included", JArr ([scenario_route] ++ scenario_stop :: [scenario_trip]))]
           [("data", JArr scenario_predictions);
            ("included", JArr [scenario_route; scenario_trip])]
           [scenario_route] scenario_stop [scenario_trip] scenario_run);
    reflexivity.
Defined.

(** ** The clean artifact *)

Lemma transform_ok raw_path run fs fs' clean_path :
  transform_mbta_data raw_path run fs = Ok (fs', clean_path) →
  ∃ payload df,
    json_load raw_path fs = Ok payload
    ∧ clean_frame payload run = Ok df
    ∧ clean_path = clean_path_of run
    ∧ fs' = <[clean_path_of run := CsvFile df]> fs.
Proof.
  unfold transform_mbta_data. intros H. ok_steps H.
  injection H as <- <-. eauto 6.
Qed.

Lemma json_load_same raw_path (fs1 fs2 : filesystem) :
  fs1 !! raw_path = fs2 !! raw_path → json_load raw_path fs1 = json_load raw_path fs2.
Proof. unfold json_load. by intros ->. Qed.

(** C8. The clean output of the Transformer is a function of the raw
    artifact and of the run identifier alone: on any two states of the file
    system that hold the same raw artifact, and so on every repetition of a
    run, it returns the same clean path and leaves the same file there (or
    raises the same exception). *)
Theorem transform_is_deterministic raw_path run (fs1 fs2 : filesystem) :
  fs1 !! raw_path = fs2 !! raw_path →
  clean_output (transform_mbta_data raw_path run fs1)
  = clean_output (transform_mbta_data raw_path run fs2).
Proof.
  intros Hraw. unfold transform_mbta_data.
  rewrite (json_load_same _ _ _ Hraw).
  destruct (json_load raw_path fs2) as [payload|e]; [|reflexivity]. simpl.
  destruct (clean_frame payload run) as [df|e]; [|reflexivity]. simpl.
  unfold clean_output, to_csv. simpl. by rewrite !lookup_insert_eq.
Qed.

(** ** Columns *)

(** C9 (amended). When the raw payload holds at least one prediction
    entity, the persisted clean artifact has exactly the columns route_id,
    route_name, trip_id, headsign, direction_id, status, delay_seconds,
    delay_minutes, departure_time and execution_date, in this order: the run
    identifier is stored under execution_date and there is no run_id
    column. *)
Theorem clean_artifact_columns raw_path run fs fs' clean_path payload pred rest :
  json_load raw_path fs = Ok payload →
  predictions payload = Ok (pred :: rest) →
  transform_mbta_data raw_path run fs = Ok (fs', clean_path) →
  ∃ df,
    fs' !! clean_path = Some (CsvFile df)
    ∧ columns df
      = ["route_id"; "route_name"; "trip_id"; "headsign"; "direction_id"; "status";
         "delay_seconds"; "delay_minutes"; "departure_time"; "execution_date"]
    ∧ Forall (λ r, execution_date r = run) (records df).
Proof.
  intros Hload Hpreds (payload' & df & Hload' & Hdf & -> & ->)%transform_ok.
  rewrite Hload in Hload'. injection Hload' as <-.
  exists df. split; [apply lookup_insert_eq|].
  destruct (retained_rows_ok _ _ _ Hdf) as (lk' & _ & Hrows).
  apply clean_frame_ok in Hdf as (lk & preds & rows & _ & Hpreds' & _ & _ & ->).
  rewrite Hpreds in Hpreds'. injection Hpreds' as <-.
  split; [reflexivity|].
  eapply Forall_impl; [exact Hrows|]. simpl.
  by intros r [p (_ & _ & _ & _ & _ & _ & _ & _ & Hrun & _)%pred_row_ok].
Qed.

Lemma clean_artifact_columns_witness :
  json_load scenario_raw_path scenario_fs = Ok scenario
  ∧ predictions scenario = Ok scenario_predictions
  ∧ transform_mbta_data scenario_raw_path scenario_run scenario_fs
    = Ok (scenario_fs_clean, clean_path_of scenario_run)
  ∧ ∃ df,
      scenario_fs_clean !! (clean_path_of scenario_run) = Some (CsvFile df)
      ∧ columns df
        = ["route_id"; "route_name"; "trip_id"; "headsign"; "direction_id"; "status";
           "delay_seconds"; "delay_minutes"; "departure_time"; "execution_date"]
      ∧ Forall (λ r, execution_date r = scenario_run) (records df).
Proof.
  assert (json_load scenario_raw_path scenario_fs = Ok scenario) as Hload
    by (unfold json_load, scenario_fs; by rewrite lookup_singleton_eq).
  assert (transform_mbta_data scenario_raw_path scenario_run scenario_fs
          = Ok (scenario_fs_clean, clean_path_of scenario_run)) as Hrun
    by (unfold transform_mbta_data; by rewrite Hload).
  split; [exact Hload|]. split; [reflexivity|]. split; [exact Hrun|].
  exact (clean_artifact_columns scenario_raw_path scenario_run scenario_fs
           scenario_fs_clean (clean_path_of scenario_run) scenario
           (hd JNull scenario_predictions) (tl scenario_predictions)
           Hload eq_refl Hrun).
Defined.

(** C9, as stated, fails: the clean artifact of the scenario has the
    columns listed above, and run_id is not one of them. *)
Lemma clean_artifact_has_no_run_id_column :
  transform_mbta_data scenario_raw_path scenario_run scenario_fs
  = Ok (scenario_fs_clean, clean_path_of scenario_run)
  ∧ scenario_fs_clean !! (clean_path_of scenario_run) = Some (CsvFile scenario_frame)
  ∧ ("run_id" ∉ columns scenario_frame)
  ∧ ("execution_date" ∈ columns scenario_frame).
Proof.
  split; [|split; [apply lookup_insert_eq|split]].
  - unfold transform_mbta_data, json_load, scenario_fs.
    by rewrite lookup_singleton_eq.
  - simpl. unfold row_keys. rewrite !not_elem_of_cons, elem_of_nil.
    repeat split; try discriminate. tauto.
  - simpl. unfold row_keys. do 9 apply list_elem_of_further. apply list_elem_of_here.
Qed.

Lemma transform_is_deterministic_witness :
  scenario_fs !! scenario_raw_path = scenario_fs_clean !! scenario_raw_path
  ∧ clean_output (transform_mbta_data scenario_raw_path scenario_run scenario_fs)
    = clean_output (transform_mbta_data scenario_raw_path scenario_run scenario_fs_clean).
Proof.
  assert (scenario_fs !! scenario_raw_path = scenario_fs_clean !! scenario_raw_path)
    as Hraw by (unfold scenario_fs_clean; by rewrite lookup_insert_ne).
  split; [exact Hraw|].
  exact (transform_is_deterministic scenario_raw_path scenario_run
           scenario_fs scenario_fs_clean Hraw).
Defined.

(** ** The Loader *)

Lemma clean_path_is_not_the_warehouse run : clean_path_of run ≠ warehouse_path.
Proof. unfold clean_path_of, warehouse_path, DATA_DIR. simpl. discriminate. Qed.

Lemma read_csv_ok path (fs : filesystem) df :
  read_csv path fs = Ok df →
  fs !! path = Some (CsvFile df) ∧ columns df ≠ [] ∧ rows_at path fs = records df.
Proof.
  unfold read_csv, rows_at. destruct (fs !! path) as [[|df']|]; try done.
  case_bool_decide; [done|]. by intros [= ->].
Qed.


Lemma rows_at_insert_ne path other f (fs : filesystem) :
  path ≠ other → rows_at path (<[other := f]> fs) = rows_at path fs.
Proof. intros Hne. unfold rows_at. by rewrite lookup_insert_ne. Qed.

(** ** The Loader and the text of the files *)

(** With the reader that gives back what was written, the Loader of this
    section is the one above. *)
Lemma read_csv_as_written path (fs : filesystem) :
  read_csv_as written_frame path fs = read_csv path fs.
Proof. unfold read_csv_as, read_csv, written_frame. by destruct (fs !! path) as [[]|]. Qed.

Lemma load_as_written clean_path (fs : filesystem) :
  load_mbta_to_warehouse_as written_frame clean_path fs
  = load_mbta_to_warehouse clean_path fs.
Proof.
  unfold load_mbta_to_warehouse_as, load_mbta_to_warehouse.
  by rewrite !read_csv_as_written.
Qed.






(** C3, as stated, fails. The Transformer turns [na_payload] into a clean
    artifact of one row whose status is the text NA. pandas reads that text
    as a missing value, so the row the Loader appends to the warehouse has no
    status: it is not the row of the clean artifact. *)
Lemma appended_row_is_the_row_read_back :
  clean_frame na_payload scenario_run = Ok na_frame
  ∧ load_mbta_to_warehouse_as reads_NA_as_missing (clean_path_of scenario_run) na_fs
    = Ok (na_fs_loaded, 1)
  ∧ status <$> rows_at (clean_path_of scenario_run) na_fs = [JStr "NA"]
  ∧ status <$> warehouse_rows na_fs_loaded = [JNull]
  ∧ warehouse_rows na_fs_loaded
    ≠ warehouse_rows na_fs ++ rows_at (clean_path_of scenario_run) na_fs.
Proof.
  split; [by vm_compute|]. split; [by vm_compute|].
  split; [by vm_compute|]. split; [by vm_compute|].
  vm_compute. discriminate.
Qed.

(** ** Runs without delays *)

(** When some predictions came in and none carries a delay, the clean
    artifact has its header and no rows, and the Loader returns 0. *)
Lemma undelayed_predictions_load_zero raw_path run (fs fs' : filesystem)
    clean_path payload pred rest :
  json_load raw_path fs = Ok payload →
  predictions payload = Ok (pred :: rest) →
  forallb (λ p, is_none (attribute p "delay")) (pred :: rest) = true →
  transform_mbta_data raw_path run fs = Ok (fs', clean_path) →
  (fs !! warehouse_path = None ∨ ∃ w, read_csv warehouse_path fs = Ok w) →
  ∃ fs'', load_mbta_to_warehouse clean_path fs' = Ok (fs'', 0).
Proof.
  intros Hload Hpreds Hnone (payload' & df & Hload' & Hdf & -> & ->)%transform_ok Hw.
  rewrite Hload in Hload'. injection Hload' as <-.
  destruct (retained_count _ _ _ Hdf)
    as (preds & Hpreds' & Hlen).
  rewrite Hpreds in Hpreds'. injection Hpreds' as <-.
  apply clean_frame_ok in Hdf as (_ & preds & _ & _ & Hpreds' & _ & _ & Hcols).
  rewrite Hpreds in Hpreds'. injection Hpreds' as <-.
  assert (List.filter (λ p, negb (is_none (attribute p "delay"))) (pred :: rest) = [])
    as Hdropped.
  { clear -Hnone. induction (pred :: rest) as [|p ps IH]; [done|].
    simpl in *. apply andb_prop in Hnone as [-> Hps]. simpl. auto. }
  rewrite Hdropped in Hlen. simpl in Hlen.
  pose proof (clean_path_is_not_the_warehouse run) as Hne.
  unfold load_mbta_to_warehouse, read_csv, exists_path, to_csv, len.
  rewrite lookup_insert_eq, Hcols. simpl.
  rewrite lookup_insert_ne by done. rewrite <- Hlen.
  destruct Hw as [Hw | [w Hw]].
  - rewrite Hw. simpl. eauto.
  - apply read_csv_ok in Hw as (Hw & Hwcols & _). rewrite Hw. simpl.
    rewrite bool_decide_false by done. simpl. eauto.
Qed.

(** C4 (evaluation of the defect). A payload without prediction entities is
    transformed without error, but the clean artifact then has no columns,
    and the Loader that follows raises EmptyDataError when it reads it back,
    whatever the state of the warehouse. *)
Theorem load_fails_after_a_payload_without_predictions
    raw_path run (fs fs' : filesystem) clean_path payload :
  json_load raw_path fs = Ok payload →
  predictions payload = Ok [] →
  transform_mbta_data raw_path run fs = Ok (fs', clean_path) →
  fs' !! clean_path = Some (CsvFile {| columns := []; records := [] |})
  ∧ load_mbta_to_warehouse clean_path fs' = Raise EmptyDataError.
Proof.
  intros Hload Hpreds (payload' & df & Hload' & Hdf & -> & ->)%transform_ok.
  rewrite Hload in Hload'. injection Hload' as <-.
  destruct (retained_count _ _ _ Hdf) as (preds & Hpreds' & Hlen).
  rewrite Hpreds in Hpreds'. injection Hpreds' as <-.
  apply clean_frame_ok in Hdf as (_ & preds & _ & _ & Hpreds' & _ & _ & Hcols).
  rewrite Hpreds in Hpreds'. injection Hpreds' as <-.
  destruct df as [cols rows]. simpl in *. subst cols.
  destruct rows; [|discriminate].
  split; [apply lookup_insert_eq|].
  unfold load_mbta_to_warehouse, read_csv. by rewrite lookup_insert_eq.
Qed.

Lemma load_fails_after_a_payload_without_predictions_witness :
  json_load scenario_raw_path quiet_fs = Ok no_predictions
  ∧ predictions no_predictions = Ok []
  ∧ transform_mbta_data scenario_raw_path scenario_run quiet_fs
    = Ok (quiet_fs_clean, clean_path_of scenario_run)
  ∧ quiet_fs_clean !! (clean_path_of scenario_run)
    = Some (CsvFile {| columns := []; records := [] |})
  ∧ load_mbta_to_warehouse (clean_path_of scenario_run) quiet_fs_clean
    = Raise EmptyDataError.
Proof.
  assert (json_load scenario_raw_path quiet_fs = Ok no_predictions) as Hload
    by (vm_compute; reflexivity).
  assert (transform_mbta_data scenario_raw_path scenario_run quiet_fs
          = Ok (quiet_fs_clean, clean_path_of scenario_run)) as Hrun
    by (vm_compute; reflexivity).
  split; [exact Hload|]. split; [reflexivity|]. split; [exact Hrun|].
  exact (load_fails_after_a_payload_without_predictions _ _ _ _ _ _
           Hload eq_refl Hrun).
Defined.

(** ** The quality check *)

(** C5. For every integer the quality check returns normally, with the same
    value, and appends exactly one line to the output: the no-delays notice
    when the count is at most 0, and otherwise the success notice, which
    ends with the count in decimal. *)
Theorem quality_check_never_fails (loaded_rows : Z) (out : list string) :
  ∃ notice,
    mbta_data_quality_check loaded_rows out = Ok (out ++ [notice], tt)
    ∧ notice = (if (loaded_rows <=? 0)%Z then no_delays_notice
                else "Data quality check passed. Delayed trips loaded: "
                     +:+ pretty loaded_rows).
Proof.
  unfold mbta_data_quality_check, print, passed_notice.
  destruct (loaded_rows <=? 0)%Z; eauto.
Qed.

(** ** Retries *)

Lemma tries_app s j1 j2 : tries s (j1 ++ j2) = tries s j1 + tries s j2.
Proof. unfold tries. by rewrite List.filter_app, length_app. Qed.

Lemma tries_other s s' journal :
  Forall (λ ev, event_stage ev = s') journal →
  stage_index s' ≠ stage_index s →
  tries s journal = 0.
Proof.
  intros H Hne. unfold tries. induction H as [|ev rest Hev _ IH]; [done|].
  simpl. destruct ev as [s0 n|s0 d]; simpl in *; subst; [|done].
  by rewrite bool_decide_false.
Qed.

Section Attempts.
Context {A : Type} (s : stage) (body : state → state * result A).

(** What the attempts of one task add to the journal: events of this task
    only, at least one try and at most one more than the retries it had
    left; all of them when the task ends on an exception that allows a
    retry; and a single one when every exception of the task forbids it. *)
Lemma attempt_events retries_left try_number st journal st' journal' r :
  attempt s body retries_left try_number st journal = (st', journal', r) →
  ∃ added,
    journal' = journal ++ added
    ∧ Forall (λ ev, event_stage ev = s) added
    ∧ waits_retry_delay added
    ∧ (1 ≤ tries s added ≤ S retries_left)%nat
    ∧ (∀ e, r = Raise e → fails_without_retry e = false →
            tries s added = S retries_left)
    ∧ ((∀ st0 e, (body st0).2 = Raise e → fails_without_retry e = true) →
       ∀ e, r = Raise e → tries s added = 1).
Proof.
  assert (∀ n, tries s [Try s n] = 1) as Hone'
    by (intros n; unfold tries; simpl; by rewrite bool_decide_true).
  revert try_number st journal.
  induction retries_left as [|k IH]; intros try_number st journal; cbn [attempt];
    destruct (body st) as [st1 [a|e]] eqn:Hbody.
  - intros [= <- <- <-]. exists [Try s try_number].
    rewrite Hone'. repeat split; try done; try lia; repeat constructor.
  - intros [= <- <- <-]. exists [Try s try_number].
    rewrite Hone'. repeat split; try done; try lia; repeat constructor.
  - intros [= <- <- <-]. exists [Try s try_number].
    rewrite Hone'. repeat split; try done; try lia; repeat constructor.
  - destruct (fails_without_retry e) eqn:Hfast.
    + intros [= <- <- <-]. exists [Try s try_number].
      rewrite Hone'. repeat split; try done; try lia; repeat constructor.
      intros e' [= <-]. congruence.
    + intros (added & -> & Hstage & Hwaits & Hbounds & Hall & Hfastonly)%IH.
      exists (Try s try_number :: RetryWait s (retry_delay default_args) :: added).
      rewrite <- !app_assoc. cbn [app].
      assert (tries s (Try s try_number :: RetryWait s (retry_delay default_args) :: added)
              = S (tries s added)) as ->.
      { change (Try s try_number :: RetryWait s (retry_delay default_args) :: added)
          with ([Try s try_number] ++ [RetryWait s (retry_delay default_args)] ++ added).
        rewrite !tries_app, Hone'. reflexivity. }
      repeat split; try done; try lia.
      * by repeat constructor.
      * by repeat constructor.
      * intros e' He' Hslow. by rewrite (Hall e' He' Hslow).
      * intros Honly. specialize (Honly st e). rewrite Hbody in Honly.
        simpl in Honly. specialize (Honly eq_refl). congruence.
Qed.

(** The exception a task ends on was raised by one of its attempts. *)
Lemma attempt_raises retries_left try_number st journal st' journal' e :
  attempt s body retries_left try_number st journal = (st', journal', Raise e) →
  ∃ st0, (body st0).2 = Raise e.
Proof.
  revert try_number st journal.
  induction retries_left as [|k IH]; intros try_number st journal; simpl;
    destruct (body st) as [st1 [a|e0]] eqn:Hbody; try done.
  - intros [= <- <- <-]. exists st. by rewrite Hbody.
  - destruct (fails_without_retry e0); [|by apply IH].
    intros [= <- <- <-]. exists st. by rewrite Hbody.
Qed.
End Attempts.

(** The connectivity check reports every failure as AirflowFailException. *)
Lemma check_fails_fast net st e :
  (check_body net st).2 = Raise e → fails_without_retry e = true.
Proof.
  unfold check_body, check_mbta_api. simpl.
  destruct (net _ _) as [resp|e']; [|by intros [= <-]].
  destruct (negb _); [by intros [= <-] | done].
Qed.

(** The quality check has no failing attempt. *)
Lemma quality_body_ok loaded_rows st : ∃ st', quality_body loaded_rows st = (st', Ok tt).
Proof.
  unfold quality_body, mbta_data_quality_check.
  destruct (Z.of_nat loaded_rows <=? 0)%Z; eauto.
Qed.

Section Stages.
Context {A : Type} (s : stage) (body : state → state * result A).

(** A task that fails after the tasks upstream of it. *)
Lemma failing_stage st journal st' journal' e :
  Forall (λ ev, (stage_index (event_stage ev) < stage_index s)%nat) journal →
  waits_retry_delay journal →
  run_task s body st journal = (st', journal', Raise e) →
  Forall (λ ev, (stage_index (event_stage ev) ≤ stage_index s)%nat) journal'
  ∧ (1 ≤ tries s journal' ≤ 1 + retries default_args)%nat
  ∧ (fails_without_retry e = false → tries s journal' = 1 + retries default_args)
  ∧ ((∀ st0 e0, (body st0).2 = Raise e0 → fails_without_retry e0 = true) →
     tries s journal' = 1)
  ∧ waits_retry_delay journal'.
Proof.
  intros Hbefore Hwaits
    (added & -> & Hstage & Hwaits' & Hbounds & Hall & Hfast)%attempt_events.
  assert (tries s journal = 0) as Hzero.
  { unfold tries. clear -Hbefore. induction Hbefore as [|ev rest Hev _ IH]; [done|].
    simpl. destruct ev as [s0 n|s0 d]; simpl in *; [|done].
    rewrite bool_decide_false by lia. done. }
  rewrite tries_app, Hzero. simpl.
  split; [|split; [exact Hbounds|split; [eauto|split; [eauto|]]]].
  - apply Forall_app. split.
    + eapply Forall_impl; [exact Hbefore|]. simpl. lia.
    + eapply Forall_impl; [exact Hstage|]. simpl. by intros ev ->.
  - by apply Forall_app.
Qed.

(** A task that succeeds after the tasks upstream of it. *)
Lemma passing_stage st journal st' journal' a :
  Forall (λ ev, (stage_index (event_stage ev) < stage_index s)%nat) journal →
  waits_retry_delay journal →
  run_task s body st journal = (st', journal', Ok a) →
  Forall (λ ev, (stage_index (event_stage ev) < S (stage_index s))%nat) journal'
  ∧ waits_retry_delay journal'.
Proof.
  intros Hbefore Hwaits (added & -> & Hstage & Hwaits' & _)%attempt_events.
  split; [|by apply Forall_app].
  apply Forall_app. split.
  - eapply Forall_impl; [exact Hbefore|]. simpl. lia.
  - eapply Forall_impl; [exact Hstage|]. simpl. intros ev ->. lia.
Qed.
End Stages.

(** The same feed as seen by the Extractor: a status other than 200 is
    reported as AirflowFailException as well. *)
Lemma extract_fails_fast_on_status (run : stamp) (fs : filesystem) n :
  extract_mbta_predictions (unavailable n) run fs = Raise AirflowFailException.
Proof. reflexivity. Qed.

(** A run on the scenario: every stage is started once and the quality check
    reports the two delayed trips. *)
Lemma scenario_run_succeeds :
  ∃ st,
    run_dag (serving scenario) scenario_run fresh
    = (st,
       [Try CONNECTIVITY_CHECK 1; Try EXTRACT 1; Try TRANSFORM 1; Try LOAD 1;
        Try QUALITY_CHECK 1],
       SUCCESS)
    ∧ stdout st = ["Data quality check passed. Delayed trips loaded: 2"]
    ∧ warehouse_rows (files st) = records scenario_frame.
Proof. eexists. split; [by vm_compute|]. split; by vm_compute. Qed.

(** * Further properties of the tasks *)

(** ** Artifact paths *)

Lemma list_ascii_of_append s t :
  String.list_ascii_of_string (s +:+ t)
  = String.list_ascii_of_string s ++ String.list_ascii_of_string t.
Proof. induction s as [|c s IH]; simpl; [reflexivity|]. by rewrite IH. Qed.

(** A common suffix can be cancelled. *)
Lemma append_inv_suffix s s' t : s +:+ t = s' +:+ t → s = s'.
Proof.
  intros H. apply (f_equal String.list_ascii_of_string) in H.
  rewrite !list_ascii_of_append in H. apply app_inv_tail in H.
  rewrite <- (String.string_of_list_ascii_of_string s),
          <- (String.string_of_list_ascii_of_string s').
  by rewrite H.
Qed.

Lemma raw_path_is_not_the_warehouse run : raw_path_of run ≠ warehouse_path.
Proof. unfold raw_path_of, warehouse_path, DATA_DIR. simpl. discriminate. Qed.

Lemma raw_path_is_not_a_clean_path run run' : raw_path_of run ≠ clean_path_of run'.
Proof. unfold raw_path_of, clean_path_of, DATA_DIR. simpl. discriminate. Qed.

(** X1. The artifacts of a run never share a path with each other or with the
    warehouse, and two runs share the path of their raw (clean) artifact
    exactly when their stamps read the same. *)
Theorem artifact_paths_do_not_collide (run run' : stamp) :
  raw_path_of run ≠ clean_path_of run'
  ∧ raw_path_of run ≠ warehouse_path
  ∧ clean_path_of run ≠ warehouse_path
  ∧ (raw_path_of run = raw_path_of run' ↔ str_stamp run = str_stamp run')
  ∧ (clean_path_of run = clean_path_of run' ↔ str_stamp run = str_stamp run').
Proof.
  split; [apply raw_path_is_not_a_clean_path|].
  split; [apply raw_path_is_not_the_warehouse|].
  split; [apply clean_path_is_not_the_warehouse|].
  unfold raw_path_of, clean_path_of.
  split; (split; [|by intros ->]); intros H.
  - do 2 apply String.app_inj in H. by apply append_inv_suffix in H.
  - do 2 apply String.app_inj in H. by apply append_inv_suffix in H.
Qed.

(** ** The Extractor *)

Lemma extract_ok g run (fs fs' : filesystem) raw_path :
  extract_mbta_predictions g run fs = Ok (fs', raw_path) →
  ∃ resp payload,
    g extract_url = Ok resp
    ∧ status_code resp = 200%Z
    ∧ json_body resp = Ok payload
    ∧ raw_path = raw_path_of run
    ∧ fs' = <[raw_path_of run := JsonFile payload]> fs.
Proof.
  unfold extract_mbta_predictions. fold extract_url.
  destruct (g extract_url) as [resp|e]; [|done].
  destruct (Z.eqb_spec (status_code resp) 200) as [Hstatus|]; [|done]. simpl.
  destruct (json_body resp) as [payload|e] eqn:Hbody; [|done]. simpl.
  intros [= <- <-]. unfold json_dump. eauto 8.
Qed.

(** X2. Extraction stores the response as it came: reading the raw artifact
    back gives the payload the feed served with status 200, and no other
    file is touched. *)
Theorem extract_stores_the_payload g run (fs fs' : filesystem) raw_path :
  extract_mbta_predictions g run fs = Ok (fs', raw_path) →
  ∃ resp payload,
    g extract_url = Ok resp
    ∧ status_code resp = 200%Z
    ∧ json_body resp = Ok payload
    ∧ raw_path = raw_path_of run
    ∧ json_load raw_path fs' = Ok payload
    ∧ ∀ path, path ≠ raw_path → fs' !! path = fs !! path.
Proof.
  intros (resp & payload & Hget & Hstatus & Hbody & -> & ->)%extract_ok.
  exists resp, payload. repeat split; try done.
  - unfold json_load. by rewrite lookup_insert_eq.
  - intros path Hne. by rewrite lookup_insert_ne.
Qed.

Lemma extract_stores_the_payload_witness :
  extract_mbta_predictions scenario_feed scenario_run ∅
  = Ok (extracted_fs, scenario_raw_path)
  ∧ ∃ resp payload,
      scenario_feed extract_url = Ok resp
      ∧ status_code resp = 200%Z
      ∧ json_body resp = Ok payload
      ∧ scenario_raw_path = raw_path_of scenario_run
      ∧ json_load scenario_raw_path extracted_fs = Ok payload
      ∧ ∀ path, path ≠ scenario_raw_path → extracted_fs !! path = (∅ : filesystem) !! path.
Proof.
  split; [reflexivity|].
  apply (extract_stores_the_payload scenario_feed scenario_run ∅ extracted_fs
           scenario_raw_path).
  reflexivity.
Defined.

(** X3. A repeated extraction for the same run leaves no trace of the earlier
    one: it ends as if the earlier extraction had not happened. *)
Theorem re_extraction_overwrites g g' run (fs fs1 : filesystem) raw_path :
  extract_mbta_predictions g run fs = Ok (fs1, raw_path) →
  extract_mbta_predictions g' run fs1 = extract_mbta_predictions g' run fs.
Proof.
  intros (resp & payload & _ & _ & _ & _ & ->)%extract_ok.
  unfold extract_mbta_predictions.
  destruct (g' _) as [resp'|e]; [|done].
  destruct (negb _); [done|].
  destruct (json_body resp') as [payload'|e]; [|done]. simpl.
  unfold json_dump. by rewrite insert_insert_eq.
Qed.

Lemma re_extraction_overwrites_witness :
  extract_mbta_predictions scenario_feed scenario_run ∅
  = Ok (extracted_fs, scenario_raw_path)
  ∧ extract_mbta_predictions (serving no_predictions 0) scenario_run extracted_fs
    = extract_mbta_predictions (serving no_predictions 0) scenario_run ∅.
Proof.
  split; [reflexivity|].
  apply (re_extraction_overwrites scenario_feed (serving no_predictions 0)
           scenario_run ∅ extracted_fs scenario_raw_path).
  reflexivity.
Defined.

(** Every failure of the Extractor is either an AirflowFailException, for a
    request that raised or a status other than 200, or the exception of
    decoding the body of a response with status 200. *)
Lemma extract_raise g run (fs : filesystem) e :
  extract_mbta_predictions g run fs = Raise e →
  e = AirflowFailException
  ∨ ∃ resp, g extract_url = Ok resp ∧ status_code resp = 200%Z ∧ json_body resp = Raise e.
Proof.
  unfold extract_mbta_predictions. fold extract_url.
  destruct (g extract_url) as [resp|e']; [|intros [= <-]; by left].
  destruct (Z.eqb_spec (status_code resp) 200) as [Hstatus|]; simpl;
    [|intros [= <-]; by left].
  destruct (json_body resp) as [payload|e'] eqn:Hbody; [done|].
  simpl. intros [= <-]. right. eauto.
Qed.

(** ** The Transformer after the Extractor *)

Lemma transform_keeps_other_files raw_path run (fs fs' : filesystem) clean_path :
  transform_mbta_data raw_path run fs = Ok (fs', clean_path) →
  clean_path = clean_path_of run
  ∧ ∀ path, path ≠ clean_path_of run → fs' !! path = fs !! path.
Proof.
  intros (payload & df & _ & _ & -> & ->)%transform_ok.
  split; [reflexivity|]. intros path Hne. by rewrite lookup_insert_ne.
Qed.

(** X5. Only the clean artifact of the run is written: raw artifacts, the
    warehouse and every other file are as they were. *)
Theorem transform_writes_the_clean_artifact_only raw_path run (fs fs' : filesystem) clean_path :
  transform_mbta_data raw_path run fs = Ok (fs', clean_path) →
  clean_path = clean_path_of run
  ∧ (∀ path, path ≠ clean_path → fs' !! path = fs !! path)
  ∧ (∀ run', fs' !! raw_path_of run' = fs !! raw_path_of run')
  ∧ fs' !! warehouse_path = fs !! warehouse_path.
Proof.
  intros (payload & df & _ & _ & -> & ->)%transform_ok.
  split; [reflexivity|]. split; [|split].
  - intros path Hne. by rewrite lookup_insert_ne.
  - intros run'. rewrite lookup_insert_ne; [done|].
    intros H. by apply (raw_path_is_not_a_clean_path run' run).
  - rewrite lookup_insert_ne; [done|]. apply clean_path_is_not_the_warehouse.
Qed.

Lemma transform_writes_the_clean_artifact_only_witness :
  transform_mbta_data scenario_raw_path scenario_run scenario_fs
  = Ok (scenario_fs_clean, clean_path_of scenario_run)
  ∧ clean_path_of scenario_run = clean_path_of scenario_run
  ∧ (∀ path, path ≠ clean_path_of scenario_run →
             scenario_fs_clean !! path = scenario_fs !! path)
  ∧ (∀ run', scenario_fs_clean !! raw_path_of run' = scenario_fs !! raw_path_of run')
  ∧ scenario_fs_clean !! warehouse_path = scenario_fs !! warehouse_path.
Proof.
  assert (transform_mbta_data scenario_raw_path scenario_run scenario_fs
          = Ok (scenario_fs_clean, clean_path_of scenario_run)) as Hrun
    by (vm_compute; reflexivity).
  split; [exact Hrun|].
  exact (transform_writes_the_clean_artifact_only _ _ _ _ _ Hrun).
Defined.

(** X4. The Transformer that follows a successful extraction reads back the
    payload the feed served: its outcome is the clean frame of that payload,
    stored at the clean path of the run, and the raw artifact still holds
    the payload afterwards. *)
Theorem extract_then_transform g run (fs fs1 : filesystem) raw_path :
  extract_mbta_predictions g run fs = Ok (fs1, raw_path) →
  ∃ resp payload,
    g extract_url = Ok resp
    ∧ json_body resp = Ok payload
    ∧ transform_mbta_data raw_path run fs1
      = (λ df, (<[clean_path_of run := CsvFile df]> fs1, clean_path_of run))
          <$> clean_frame payload run
    ∧ ∀ fs2 clean_path,
        transform_mbta_data raw_path run fs1 = Ok (fs2, clean_path) →
        json_load raw_path fs2 = Ok payload.
Proof.
  intros (resp & payload & Hget & _ & Hbody & -> & ->)%extract_ok.
  exists resp, payload. split; [done|]. split; [done|].
  assert (json_load (raw_path_of run) (<[raw_path_of run := JsonFile payload]> fs)
          = Ok payload) as Hload
    by (unfold json_load; by rewrite lookup_insert_eq).
  split.
  - unfold transform_mbta_data. rewrite Hload. simpl.
    by destruct (clean_frame payload run).
  - intros fs2 clean_path Hrun.
    apply transform_keeps_other_files in Hrun as (_ & Hother).
    unfold json_load in *. rewrite Hother; [done|].
    apply raw_path_is_not_a_clean_path.
Qed.

Lemma extract_then_transform_witness :
  extract_mbta_predictions scenario_feed scenario_run ∅
  = Ok (extracted_fs, scenario_raw_path)
  ∧ ∃ resp payload,
      scenario_feed extract_url = Ok resp
      ∧ json_body resp = Ok payload
      ∧ transform_mbta_data scenario_raw_path scenario_run extracted_fs
        = (λ df, (<[clean_path_of scenario_run := CsvFile df]> extracted_fs,
                  clean_path_of scenario_run))
            <$> clean_frame payload scenario_run
      ∧ ∀ fs2 clean_path,
          transform_mbta_data scenario_raw_path scenario_run extracted_fs
          = Ok (fs2, clean_path) →
          json_load scenario_raw_path fs2 = Ok payload.
Proof.
  split; [reflexivity|].
  apply (extract_then_transform scenario_feed scenario_run ∅ extracted_fs
           scenario_raw_path).
  reflexivity.
Defined.

(** ** Failure and success of the Loader *)

Lemma load_is_ok clean_path (fs : filesystem) :
  is_ok (load_mbta_to_warehouse clean_path fs)
  = is_ok (read_csv clean_path fs)
    && (negb (exists_path warehouse_path fs) || is_ok (read_csv warehouse_path fs)).
Proof.
  unfold load_mbta_to_warehouse.
  destruct (read_csv clean_path fs) as [df_clean|e0]; [|reflexivity]. simpl.
  destruct (exists_path warehouse_path fs); [|reflexivity]. simpl.
  by destruct (read_csv warehouse_path fs).
Qed.


(** X13. A successful load changes the warehouse file and nothing else, and it
    leaves a warehouse that can be read: the next load of any readable clean
    artifact succeeds. *)
Theorem load_keeps_the_warehouse_readable clean_path (fs fs' : filesystem) n :
  load_mbta_to_warehouse clean_path fs = Ok (fs', n) →
  (∀ path, path ≠ warehouse_path → fs' !! path = fs !! path)
  ∧ (∃ df, read_csv warehouse_path fs' = Ok df ∧ (n ≤ len df)%nat)
  ∧ (∀ next, is_ok (read_csv next fs') = true →
             is_ok (load_mbta_to_warehouse next fs') = true).
Proof.
  intros H.
  assert (∃ df, fs' = <[warehouse_path := CsvFile df]> fs
                ∧ columns df ≠ [] ∧ (n ≤ len df)%nat) as (df & -> & Hcols & Hlen).
  { unfold load_mbta_to_warehouse in H. ok_steps H. injection H as <- <-.
    apply read_csv_ok in E as (_ & Hclean & _).
    exists v0. split; [reflexivity|].
    destruct (exists_path warehouse_path fs).
    - ok_steps E0. injection E0 as <-.
      apply read_csv_ok in E as (_ & Hold & _).
      unfold concat, len. simpl. rewrite length_app. split; [|lia].
      destruct (columns v1); [done|]. simpl. discriminate.
    - injection E0 as <-. split; [assumption|]. done. }
  assert (read_csv warehouse_path (<[warehouse_path := CsvFile df]> fs) = Ok df)
    as Hread.
  { unfold read_csv. rewrite lookup_insert_eq. by rewrite bool_decide_false. }
  split; [|split].
  - intros path Hne. by rewrite lookup_insert_ne.
  - eauto.
  - intros next Hnext.
    rewrite load_is_ok, Hnext, Hread. simpl. apply orb_true_r.
Qed.

Lemma load_keeps_the_warehouse_readable_witness :
  load_mbta_to_warehouse (clean_path_of scenario_run) scenario_fs_clean
  = Ok (<[warehouse_path := CsvFile scenario_frame]> scenario_fs_clean, 2)
  ∧ (∀ path, path ≠ warehouse_path →
             <[warehouse_path := CsvFile scenario_frame]> scenario_fs_clean !! path
             = scenario_fs_clean !! path)
  ∧ (∃ df, read_csv warehouse_path
             (<[warehouse_path := CsvFile scenario_frame]> scenario_fs_clean) = Ok df
           ∧ (2 ≤ len df)%nat)
  ∧ (∀ next,
       is_ok (read_csv next
                (<[warehouse_path := CsvFile scenario_frame]> scenario_fs_clean)) = true →
       is_ok (load_mbta_to_warehouse next
                (<[warehouse_path := CsvFile scenario_frame]> scenario_fs_clean)) = true).
Proof.
  assert (load_mbta_to_warehouse (clean_path_of scenario_run) scenario_fs_clean
          = Ok (<[warehouse_path := CsvFile scenario_frame]> scenario_fs_clean, 2))
    as Hload by (vm_compute; reflexivity).
  split; [exact Hload|].
  exact (load_keeps_the_warehouse_readable _ _ _ _ Hload).
Defined.

(** ** The Loader after the Transformer *)


(** X10. The clean artifact can be read back exactly when the payload held at
    least one prediction entity. *)
Theorem clean_artifact_is_readable_iff raw_path run (fs fs' : filesystem)
    clean_path payload preds :
  json_load raw_path fs = Ok payload →
  predictions payload = Ok preds →
  transform_mbta_data raw_path run fs = Ok (fs', clean_path) →
  is_ok (read_csv clean_path fs') = negb (bool_decide (preds = [])).
Proof.
  intros Hload Hpreds (payload' & df & Hload' & Hdf & -> & ->)%transform_ok.
  rewrite Hload in Hload'. injection Hload' as <-.
  apply clean_frame_ok in Hdf as (_ & preds' & _ & _ & Hpreds' & _ & _ & Hcols).
  rewrite Hpreds in Hpreds'. injection Hpreds' as <-.
  unfold read_csv. rewrite lookup_insert_eq, Hcols.
  by destruct preds.
Qed.

Lemma clean_artifact_is_readable_iff_witness :
  json_load scenario_raw_path scenario_fs = Ok scenario
  ∧ predictions scenario = Ok scenario_predictions
  ∧ transform_mbta_data scenario_raw_path scenario_run scenario_fs
    = Ok (scenario_fs_clean, clean_path_of scenario_run)
  ∧ is_ok (read_csv (clean_path_of scenario_run) scenario_fs_clean)
    = negb (bool_decide (scenario_predictions = [])).
Proof.
  assert (json_load scenario_raw_path scenario_fs = Ok scenario) as Hload
    by (vm_compute; reflexivity).
  assert (transform_mbta_data scenario_raw_path scenario_run scenario_fs
          = Ok (scenario_fs_clean, clean_path_of scenario_run)) as Hrun
    by (vm_compute; reflexivity).
  split; [exact Hload|]. split; [reflexivity|]. split; [exact Hrun|].
  exact (clean_artifact_is_readable_iff _ _ _ _ _ _ _ Hload eq_refl Hrun).
Defined.



(** ** What the Transformer needs from a prediction *)





(** The scenario with one more prediction, whose delay is a string: the
    Transformer raises TypeError and writes nothing. *)
Lemma spoiled_payload_fails :
  clean_frame spoiled_payload scenario_run = Raise TypeError
  ∧ transform_mbta_data scenario_raw_path scenario_run
      {[ scenario_raw_path := JsonFile spoiled_payload ]}
    = Raise TypeError.
Proof. split; by vm_compute. Qed.

(** ** Trips *)

Lemma find_trip before item after q :
  is_trip item = true →
  no_match after "trip" (entity_id item) = true →
  key_eqb (entity_id item) q = true →
  find q (rev (trip_entry <$> List.filter is_trip (before ++ item :: after)))
  = Some (trip_entry item).2.
Proof.
  intros Htrip Hafter Hq.
  rewrite List.filter_app. simpl. rewrite Htrip.
  rewrite fmap_app, rev_app_distr. simpl. rewrite <- app_assoc, find_app.
  rewrite no_match_trip; [simpl; by rewrite Hq|].
  unfold no_match in *. rewrite forallb_forall in *.
  intros later Hin. rewrite <- (key_eqb_compat _ _ _ Hq). auto.
Qed.

(** X7. The headsign and the direction of a row are those of the included trip
    entity whose identifier is the trip_id of the row; when several included
    trips have that identifier, the last one counts. *)
Theorem trip_fields_resolution payload run df before item after :
  clean_frame payload run = Ok df →
  included_entities payload = Ok (before ++ item :: after) →
  is_trip item = true →
  no_match after "trip" (entity_id item) = true →
  Forall (λ r, key_eqb (entity_id item) (trip_id r) = true →
               headsign r = attribute item "headsign"
               ∧ direction_id r = attribute item "direction_id")
         (records df).
Proof.
  intros (lk & Hlk & Hrows)%retained_rows_ok Hitems Htrip Hafter.
  apply payload_lookups_ok in Hlk as (items & Hitems' & _ & Htl).
  rewrite Hitems in Hitems'. injection Hitems' as <-.
  eapply Forall_impl; [exact Hrows|]. simpl.
  intros r [pred Hrow] Hkey.
  apply pred_row_ok in Hrow as (_ & _ & _ & -> & -> & _).
  by rewrite Htl, (find_trip _ _ _ _ Htrip Hafter Hkey).
Qed.

Lemma trip_fields_resolution_witness :
  clean_frame scenario scenario_run = Ok scenario_frame
  ∧ included_entities scenario = Ok ([scenario_route] ++ scenario_trip :: [])
  ∧ is_trip scenario_trip = true
  ∧ no_match [] "trip" (entity_id scenario_trip) = true
  ∧ Forall (λ r, key_eqb (entity_id scenario_trip) (trip_id r) = true →
                 headsign r = attribute scenario_trip "headsign"
                 ∧ direction_id r = attribute scenario_trip "direction_id")
           (records scenario_frame).
Proof.
  split; [reflexivity|]. split; [reflexivity|]. split; [reflexivity|].
  split; [reflexivity|].
  apply (trip_fields_resolution scenario scenario_run scenario_frame
           [scenario_route] scenario_trip []); reflexivity.
Defined.

(** * Runs of the DAG *)

(** ** One task *)

Lemma tries_attempts_journal s first count : tries s (attempts_journal s first count) = count.
Proof.
  revert first. induction count as [|k IH]; intros first; [reflexivity|].
  destruct k as [|k].
  - unfold tries. simpl. by rewrite bool_decide_true.
  - change (attempts_journal s first (S (S k)))
      with ([Try s first] ++ [RetryWait s (retry_delay default_args)]
            ++ attempts_journal s (S first) (S k)).
    rewrite !tries_app, IH. unfold tries. simpl. by rewrite bool_decide_true.
Qed.

Lemma attempts_journal_stage s first count :
  Forall (λ ev, event_stage ev = s) (attempts_journal s first count).
Proof.
  revert first. induction count as [|k IH]; intros first; [constructor|].
  destruct k as [|k]; [by repeat constructor|].
  constructor; [done|]. constructor; [done|]. apply IH.
Qed.

Section TaskRuns.
Context {A : Type} (s : stage) (body : state → state * result A).

(** All there is to say about the attempts of a task: it is started [k]
    times, between once and once more than it has retries left; the first
    [k - 1] executions failed on exceptions that allow a retry, the last one
    gave the result; and when the result is such an exception too, the
    retries are used up. *)
Lemma attempt_shape retries_left try_number st journal st' journal' r :
  attempt s body retries_left try_number st journal = (st', journal', r) →
  ∃ k st0,
    (1 ≤ k ≤ S retries_left)%nat
    ∧ journal' = journal ++ attempts_journal s try_number k
    ∧ failures body (k - 1) st st0
    ∧ body st0 = (st', r)
    ∧ (∀ e, r = Raise e → fails_without_retry e = false → k = S retries_left).
Proof.
  revert try_number st journal.
  induction retries_left as [|n IH]; intros try_number st journal; cbn [attempt];
    destruct (body st) as [st1 [a|e]] eqn:Hbody.
  - intros [= <- <- <-]. exists 1, st. repeat split; try done; try lia. constructor.
  - intros [= <- <- <-]. exists 1, st. repeat split; try done; try lia. constructor.
  - intros [= <- <- <-]. exists 1, st. repeat split; try done; try lia. constructor.
  - destruct (fails_without_retry e) eqn:Hfast.
    + intros [= <- <- <-]. exists 1, st. repeat split; try done; try lia.
      * constructor.
      * intros e' [= <-]. congruence.
    + intros (k & st0 & Hk & -> & Hfail & Hlast & Hall)%IH.
      exists (S k), st0. repeat split; try lia; try done.
      * rewrite <- !app_assoc. simpl. destruct k; [lia|]. reflexivity.
      * replace (S k - 1) with (S (k - 1)) by lia. econstructor; eauto.
      * intros e' He' Hslow. by rewrite (Hall e' He' Hslow).
Qed.

Lemma run_task_shape st journal st' journal' r :
  run_task s body st journal = (st', journal', r) →
  ∃ k st0,
    (1 ≤ k ≤ 1 + retries default_args)%nat
    ∧ journal' = journal ++ attempts_journal s 1 k
    ∧ failures body (k - 1) st st0
    ∧ body st0 = (st', r)
    ∧ (∀ e, r = Raise e → fails_without_retry e = false →
            k = 1 + retries default_args).
Proof. apply attempt_shape. Qed.

(** A body that leaves the files and the output alone when it fails. *)
Lemma failures_keep k st st0 :
  (∀ x y e, body x = (y, Raise e) → files y = files x ∧ stdout y = stdout x) →
  failures body k st st0 →
  files st0 = files st ∧ stdout st0 = stdout st.
Proof.
  intros Hkeep H. induction H as [|k st st1 st2 e Hbody _ _ [IHf IHo]]; [done|].
  destruct (Hkeep _ _ _ Hbody) as [Hf Ho]. split; congruence.
Qed.

(** A body that makes one request per execution. *)
Lemma failures_requests k st st0 :
  (∀ x, requests_made (body x).1 = S (requests_made x)) →
  failures body k st st0 →
  requests_made st0 = requests_made st + k.
Proof.
  intros Hone H. induction H as [|k st st1 st2 e Hbody _ _ IH]; [lia|].
  specialize (Hone st). rewrite Hbody in Hone. simpl in Hone. lia.
Qed.

(** A body that makes no request. *)
Lemma failures_no_requests k st st0 :
  (∀ x, requests_made (body x).1 = requests_made x) →
  failures body k st st0 →
  requests_made st0 = requests_made st.
Proof.
  intros Hnone H. induction H as [|k st st1 st2 e Hbody _ _ IH]; [lia|].
  specialize (Hnone st). rewrite Hbody in Hnone. simpl in Hnone. lia.
Qed.

(** A body whose exceptions all forbid a retry is executed once. *)
Lemma failures_fast k st st0 :
  (∀ x y e, body x = (y, Raise e) → fails_without_retry e = true) →
  failures body k st st0 → k = 0 ∧ st0 = st.
Proof.
  intros Hfast H. destruct H as [|k st st1 st2 e Hbody Hslow _]; [done|].
  specialize (Hfast _ _ _ Hbody). congruence.
Qed.
End TaskRuns.

(** ** The exceptions of the Transformer and of the Loader *)

Lemma retryable_ok {A} (a : A) : retryable (Ok a).
Proof. by intros e. Qed.

Lemma retryable_bind {A B} (m : result A) (k : A → result B) :
  retryable m → (∀ a, retryable (k a)) → retryable (m ≫= k).
Proof.
  intros Hm Hk e. destruct m as [a|e']; simpl; [apply Hk|].
  intros [= <-]. by apply Hm.
Qed.

Lemma retryable_fmap {A B} (g : A → B) (m : result A) : retryable m → retryable (g <$> m).
Proof. intros Hm e. destruct m as [a|e']; simpl; [done|]. intros [= <-]. by apply Hm. Qed.

Lemma retryable_get o key d : retryable (get o key d).
Proof. intros e. destruct o; simpl; by intros [= <-]. Qed.

Lemma retryable_iter v : retryable (iter v).
Proof. intros e. destruct v; simpl; by intros [= <-]. Qed.

Lemma retryable_setitem {V} k (v : V) t : retryable (setitem k v t).
Proof. intros e. unfold setitem. destruct (hashable k); by intros [= <-]. Qed.

Lemma retryable_table_get {V} k (t : table V) : retryable (table_get k t).
Proof. intros e. unfold table_get. destruct (hashable k); by intros [= <-]. Qed.

Lemma retryable_float_of_int n : retryable (float_of_int n).
Proof. intros e. unfold float_of_int. destruct (is_infinity _); by intros [= <-]. Qed.

Lemma retryable_div_60 v : retryable (div_60 v).
Proof.
  destruct v; simpl; try (intros e; by intros [= <-]);
    apply retryable_bind; auto using retryable_float_of_int, retryable_ok.
  all: intros; apply retryable_ok.
Qed.

(** Unfold a chain of binds into its steps. *)
Ltac retryable_steps :=
  repeat first
    [ apply retryable_ok
    | apply retryable_get
    | apply retryable_iter
    | apply retryable_setitem
    | apply retryable_table_get
    | apply retryable_div_60
    | apply retryable_fmap
    | apply retryable_bind; [|intros ?]
    | progress cbv zeta ].

Lemma retryable_add_included item lk : retryable (add_included item lk).
Proof.
  unfold add_included. retryable_steps.
  destruct (eq_str _ "route"); [retryable_steps|].
  destruct (eq_str _ "trip"); retryable_steps.
Qed.

Lemma retryable_build_lookups items lk : retryable (build_lookups items lk).
Proof.
  revert lk. induction items as [|item rest IH]; intros lk; simpl; [apply retryable_ok|].
  apply retryable_bind; [apply retryable_add_included | auto].
Qed.

Lemma retryable_pred_row lk run pred : retryable (pred_row lk run pred).
Proof.
  unfold pred_row. retryable_steps.
  destruct (is_none _); retryable_steps.
Qed.

Lemma retryable_build_rows lk run preds : retryable (build_rows lk run preds).
Proof.
  induction preds as [|pred rest IH]; simpl; [apply retryable_ok|].
  apply retryable_bind; [apply retryable_pred_row|]. intros r.
  apply retryable_bind; [apply IH|]. intros rows. apply retryable_ok.
Qed.

Lemma retryable_clean_frame payload run : retryable (clean_frame payload run).
Proof.
  unfold clean_frame. retryable_steps.
  - apply retryable_build_lookups.
  - apply retryable_build_rows.
  - destruct (negb _); [|apply retryable_ok].
    unfold keep_delay_notna. case_bool_decide; [apply retryable_ok|].
    by intros e [= <-].
Qed.

Lemma retryable_json_load path (fs : filesystem) : retryable (json_load path fs).
Proof.
  intros e. unfold json_load. destruct (fs !! path) as [[]|]; by intros [= <-].
Qed.

Lemma retryable_read_csv path (fs : filesystem) : retryable (read_csv path fs).
Proof.
  intros e. unfold read_csv. destruct (fs !! path) as [[|df]|]; try by intros [= <-].
  case_bool_decide; by intros [= <-].
Qed.

(** The Transformer and the Loader never raise AirflowFailException: each of
    their failures leaves the task up for retry. *)
Lemma retryable_transform raw_path run (fs : filesystem) :
  retryable (transform_mbta_data raw_path run fs).
Proof.
  unfold transform_mbta_data.
  apply retryable_bind; [apply retryable_json_load|]. intros payload.
  apply retryable_bind; [apply retryable_clean_frame|]. intros df.
  apply retryable_ok.
Qed.

Lemma retryable_load clean_path (fs : filesystem) :
  retryable (load_mbta_to_warehouse clean_path fs).
Proof.
  unfold load_mbta_to_warehouse.
  apply retryable_bind; [apply retryable_read_csv|]. intros df_clean. cbv zeta.
  apply retryable_bind; [|intros; apply retryable_ok].
  destruct (exists_path _ _); [|apply retryable_ok].
  apply retryable_bind; [apply retryable_read_csv|]. intros; apply retryable_ok.
Qed.

(** ** The run as a relation *)

Lemma run_task_run {A} s (body : state → state * result A) st journal st' journal' r :
  run_task s body st journal = (st', journal', r) →
  ∃ k, task_run body st k st' r ∧ journal' = journal ++ attempts_journal s 1 k.
Proof.
  intros (k & st0 & Hk & -> & Hfail & Hlast & Hall)%run_task_shape.
  exists k. split; [|reflexivity]. split; [exact Hk|]. eauto.
Qed.

(** Every run of [run_dag] is a run in the sense of [dag_run]. *)
Lemma run_dag_run net run st st' journal outcome :
  run_dag net run st = (st', journal, outcome) → dag_run net run st st' journal outcome.
Proof.
  unfold run_dag. intros H.
  unfold stage_then at 1 in H.
  destruct (run_task CONNECTIVITY_CHECK _ st []) as [[st1 j1] r1] eqn:H1.
  apply run_task_run in H1 as (k1 & T1 & ->). simpl app in H.
  destruct r1 as [ok|e]; [|injection H as <- <- <-; by apply check_failed].
  unfold stage_then at 1 in H.
  destruct (run_task EXTRACT _ st1 _) as [[st2 j2] r2] eqn:H2.
  apply run_task_run in H2 as (k2 & T2 & ->).
  destruct r2 as [raw|e]; [|injection H as <- <- <-; by eapply extract_failed].
  unfold stage_then at 1 in H.
  destruct (run_task TRANSFORM _ st2 _) as [[st3 j3] r3] eqn:H3.
  apply run_task_run in H3 as (k3 & T3 & ->).
  destruct r3 as [clean|e].
  2: { injection H as <- <- <-. rewrite <- app_assoc. by eapply transform_failed. }
  unfold stage_then at 1 in H.
  destruct (run_task LOAD _ st3 _) as [[st4 j4] r4] eqn:H4.
  apply run_task_run in H4 as (k4 & T4 & ->).
  destruct r4 as [loaded_rows|e].
  2: { injection H as <- <- <-. rewrite <- !app_assoc. by eapply load_failed. }
  unfold stage_then at 1 in H.
  destruct (run_task QUALITY_CHECK _ st4 _) as [[st5 j5] r5] eqn:H5.
  apply run_task_run in H5 as (k5 & T5 & ->).
  destruct r5 as [u|e].
  - injection H as <- <- <-. rewrite <- !app_assoc. by eapply succeeded.
  - injection H as <- <- <-. rewrite <- !app_assoc. by eapply quality_failed.
Qed.

(** ** What each task does to the state *)

Lemma on_files_ok {A} (f : filesystem → result (filesystem * A)) st st' a :
  on_files f st = (st', Ok a) →
  f (files st) = Ok (files st', a)
  ∧ stdout st' = stdout st ∧ requests_made st' = requests_made st.
Proof.
  unfold on_files. destruct (f (files st)) as [[fs b]|e]; [|done].
  by intros [= <- <-].
Qed.

Lemma on_files_raise {A} (f : filesystem → result (filesystem * A)) st st' e :
  on_files f st = (st', Raise e) → st' = st ∧ f (files st) = Raise e.
Proof.
  unfold on_files. destruct (f (files st)) as [[fs b]|e']; [done|].
  by intros [= <- <-].
Qed.

(** The connectivity check is executed once, makes one request and touches
    neither the files nor the output. *)
Lemma check_task_run net st k st' r :
  task_run (check_body net) st k st' r →
  k = 1 ∧ st' = next_request st ∧ r = check_mbta_api (net (requests_made st)).
Proof.
  intros (Hk & st0 & Hfail & Hlast & _).
  apply failures_fast in Hfail as [Hzero ->].
  - unfold check_body in Hlast. injection Hlast as <- <-. split; [lia|done].
  - intros x y e Hx. apply (check_fails_fast net x). by rewrite Hx.
Qed.

(** The Extractor makes one request per execution; its failed executions
    leave the files alone, and the last one is the extraction on the answer
    to the last request. *)
Lemma extract_task_run net run st k st' r :
  task_run (extract_body net run) st k st' r →
  requests_made st' = requests_made st + k
  ∧ stdout st' = stdout st
  ∧ match r with
    | Ok raw_path =>
        extract_mbta_predictions (net (requests_made st + (k - 1))) run (files st)
        = Ok (files st', raw_path)
    | Raise e =>
        files st' = files st
        ∧ extract_mbta_predictions (net (requests_made st + (k - 1))) run (files st)
          = Raise e
    end.
Proof.
  intros (Hk & st0 & Hfail & Hlast & _).
  assert (files st0 = files st ∧ stdout st0 = stdout st) as [Hfiles Hout].
  { eapply failures_keep; [|exact Hfail].
    intros x y e Hx. unfold extract_body in Hx.
    by apply on_files_raise in Hx as [-> _]. }
  assert (requests_made st0 = requests_made st + (k - 1)) as Hreq.
  { eapply failures_requests; [|exact Hfail].
    intros x. unfold extract_body, on_files. simpl.
    by destruct (extract_mbta_predictions _ _ _) as [[fs a]|e]. }
  unfold extract_body in Hlast. rewrite Hreq in Hlast. destruct r as [raw_path|e].
  - apply on_files_ok in Hlast as (Hrun & Hout' & Hreq'). simpl in *.
    rewrite Hfiles in Hrun. rewrite Hout', Hout, Hreq', Hreq. repeat split; [lia|done].
  - apply on_files_raise in Hlast as [-> Hrun]. simpl in *.
    rewrite Hfiles in Hrun. rewrite Hreq. repeat split; try done. lia.
Qed.

Section FileTasks.
Context {A : Type} (f : filesystem → result (filesystem * A)).
Hypothesis f_retryable : ∀ fs, retryable (f fs).

(** A task that works on the files alone and never raises
    AirflowFailException, such as the Transformer and the Loader, succeeds
    at its first execution or fails at every one of them, leaving the state
    as it was. *)
Lemma file_task_run st k st' r :
  task_run (on_files f) st k st' r →
  requests_made st' = requests_made st
  ∧ stdout st' = stdout st
  ∧ match r with
    | Ok a => k = 1 ∧ f (files st) = Ok (files st', a)
    | Raise e =>
        k = 1 + retries default_args ∧ st' = st ∧ f (files st) = Raise e
        ∧ fails_without_retry e = false
    end.
Proof.
  intros (Hk & st0 & Hfail & Hlast & Hall).
  assert (st0 = st ∧ (k - 1 = 0 ∨ ∃ e, f (files st) = Raise e)) as [-> Hfirst].
  { clear -Hfail. induction Hfail as [|n st st1 st2 e Hbody _ _ IH]; [split; [done | by left]|].
    apply on_files_raise in Hbody as [-> Hraise]. destruct IH as [-> _].
    split; [done|]. right. eauto. }
  destruct r as [a|e].
  - apply on_files_ok in Hlast as (Hrun & Hout & Hreq).
    repeat split; try done.
    destruct Hfirst as [Hzero|[e He]]; [lia|congruence].
  - apply on_files_raise in Hlast as [-> Hrun].
    assert (fails_without_retry e = false) as Hslow by by eapply f_retryable.
    repeat split; try done. by apply (Hall e).
Qed.
End FileTasks.

(** The quality check is executed once and prints its notice. *)
Lemma quality_task_run loaded_rows st k st' r :
  task_run (quality_body loaded_rows) st k st' r →
  k = 1 ∧ r = Ok tt
  ∧ files st' = files st
  ∧ requests_made st' = requests_made st
  ∧ stdout st'
    = stdout st ++ [if (Z.of_nat loaded_rows <=? 0)%Z then no_delays_notice
                    else passed_notice (Z.of_nat loaded_rows)].
Proof.
  intros (Hk & st0 & Hfail & Hlast & _).
  apply failures_fast in Hfail as [Hzero ->].
  - unfold quality_body, mbta_data_quality_check, print in Hlast.
    destruct (Z.of_nat loaded_rows <=? 0)%Z; injection Hlast as <- <-;
      repeat split; try done; lia.
  - intros x y e Hx. destruct (quality_body_ok loaded_rows x) as [z Hz]. congruence.
Qed.

(** ** Whole runs *)

(** The tasks of a run, each with what it did. *)
Ltac run_tasks H :=
  apply run_dag_run in H; inversion H; subst; clear H;
  repeat match goal with
  | T : task_run (check_body _) _ _ _ _ |- _ =>
      apply check_task_run in T as (-> & -> & ?)
  | T : task_run (extract_body _ _) _ _ _ _ |- _ =>
      apply extract_task_run in T as (? & ? & ?)
  | T : task_run (transform_body ?raw ?run) _ _ _ _ |- _ =>
      apply (file_task_run (transform_mbta_data raw run)
               (retryable_transform raw run)) in T as (? & ? & ?)
  | T : task_run (load_body ?clean) _ _ _ _ |- _ =>
      apply (file_task_run (load_mbta_to_warehouse clean)
               (retryable_load clean)) in T as (? & ? & ?)
  | T : task_run (quality_body _) _ _ _ _ |- _ =>
      apply quality_task_run in T as (-> & ? & ? & ? & ?)
  end.

(** X14. The journal of a run is fixed by its outcome up to the number of
    attempts of the Extractor: the connectivity check and the quality check
    are started once; the Transformer and the Loader once when they succeed
    and 1 + 2 times when they fail; the Extractor between once and 1 + 2
    times, and 1 + 2 times when it ends on an exception that allows a retry.
    The stages come in the order of the pipeline, their attempts numbered
    from 1 with the configured wait before each retry, and the quality check
    never fails a run. *)
Theorem journal_shape net run st st' journal outcome :
  run_dag net run st = (st', journal, outcome) →
  ∃ k,
    (1 ≤ k ≤ 1 + retries default_args)%nat
    ∧ journal = journal_of (stage_counts outcome k)
    ∧ (∀ e, outcome ≠ FAILED QUALITY_CHECK e)
    ∧ (∀ e, outcome = FAILED EXTRACT e → fails_without_retry e = false →
            k = 1 + retries default_args).
Proof.
  intros H. apply run_dag_run in H. inversion H; subst; clear H;
    repeat match goal with
    | T : task_run (check_body _) _ _ _ _ |- _ =>
        apply check_task_run in T as (-> & -> & _)
    | T : task_run (transform_body ?raw ?r) _ _ _ _ |- _ =>
        apply (file_task_run (transform_mbta_data raw r)
                 (retryable_transform raw r)) in T as (_ & _ & -> & _)
    | T : task_run (load_body ?clean) _ _ _ _ |- _ =>
        apply (file_task_run (load_mbta_to_warehouse clean)
                 (retryable_load clean)) in T as (_ & _ & -> & _)
    | T : task_run (quality_body _) _ _ _ _ |- _ =>
        apply quality_task_run in T as (-> & ? & _)
    end; try discriminate.
  - exists 1. split; [simpl; lia|]. by repeat split.
  - match goal with T : task_run (extract_body _ _) _ ?k _ _ |- _ =>
      destruct T as (Hk & st0 & _ & _ & Hall); exists k end.
    split; [exact Hk|]. split; [|split; [done|]].
    + unfold journal_of. simpl. by rewrite ?app_nil_r.
    + intros e' [= <-]. by apply Hall.
  - match goal with T : task_run (extract_body _ _) _ ?k _ _ |- _ =>
      destruct T as (Hk & _); exists k end.
    split; [exact Hk|]. split; [|by split].
    unfold journal_of. simpl. by rewrite ?app_nil_r.
  - match goal with T : task_run (extract_body _ _) _ ?k _ _ |- _ =>
      destruct T as (Hk & _); exists k end.
    split; [exact Hk|]. split; [|by split].
    unfold journal_of. simpl. by rewrite ?app_nil_r.
  - match goal with T : task_run (extract_body _ _) _ ?k _ _ |- _ =>
      destruct T as (Hk & _); exists k end.
    split; [exact Hk|]. split; [|by split].
    unfold journal_of. simpl. by rewrite ?app_nil_r.
Qed.

Lemma journal_shape_witness :
  run_dag (serving no_predictions) scenario_run fresh
  = (quiet_end, quiet_journal, FAILED LOAD EmptyDataError)
  ∧ ∃ k,
      (1 ≤ k ≤ 1 + retries default_args)%nat
      ∧ quiet_journal = journal_of (stage_counts (FAILED LOAD EmptyDataError) k)
      ∧ (∀ e, FAILED LOAD EmptyDataError ≠ FAILED QUALITY_CHECK e)
      ∧ (∀ e, FAILED LOAD EmptyDataError = FAILED EXTRACT e →
              fails_without_retry e = false → k = 1 + retries default_args).
Proof.
  assert (run_dag (serving no_predictions) scenario_run fresh
          = (quiet_end, quiet_journal, FAILED LOAD EmptyDataError)) as Hrun
    by (vm_compute; reflexivity).
  split; [exact Hrun|].
  exact (journal_shape _ _ _ _ _ _ Hrun).
Defined.

Lemma tries_attempts_other s s' first count :
  stage_index s' ≠ stage_index s → tries s (attempts_journal s' first count) = 0.
Proof. intros Hne. eapply tries_other; [apply attempts_journal_stage | done]. Qed.

(** Count the attempts of a stage in a journal made of blocks. *)
Ltac count_tries :=
  rewrite ?tries_app, ?tries_attempts_journal;
  rewrite ?tries_attempts_other by discriminate.

(** X15. A run makes one request for the connectivity check, which is started
    exactly once whatever happens, and one request for each attempt of the
    Extractor: between one and four requests in all. *)
Theorem requests_of_a_run net run st st' journal outcome :
  run_dag net run st = (st', journal, outcome) →
  requests_made st'
  = requests_made st + tries CONNECTIVITY_CHECK journal + tries EXTRACT journal
  ∧ tries CONNECTIVITY_CHECK journal = 1
  ∧ (tries EXTRACT journal ≤ 1 + retries default_args)%nat.
Proof.
  intros H. apply run_dag_run in H. inversion H; subst; clear H;
    repeat match goal with
    | T : task_run (check_body _) _ _ _ _ |- _ =>
        apply check_task_run in T as (-> & -> & _)
    | T : task_run (extract_body _ _) _ _ _ _ |- _ =>
        pose proof T as (? & _); apply extract_task_run in T as (? & _ & _)
    | T : task_run (transform_body ?raw ?r) _ _ _ _ |- _ =>
        apply (file_task_run (transform_mbta_data raw r)
                 (retryable_transform raw r)) in T as (? & _ & _)
    | T : task_run (load_body ?clean) _ _ _ _ |- _ =>
        apply (file_task_run (load_mbta_to_warehouse clean)
                 (retryable_load clean)) in T as (? & _ & _)
    | T : task_run (quality_body _) _ _ _ _ |- _ =>
        apply quality_task_run in T as (_ & _ & _ & ? & _)
    end; count_tries; simpl in *; lia.
Qed.

Lemma requests_of_a_run_witness :
  run_dag (serving no_predictions) scenario_run fresh
  = (quiet_end, quiet_journal, FAILED LOAD EmptyDataError)
  ∧ requests_made quiet_end
    = requests_made fresh + tries CONNECTIVITY_CHECK quiet_journal
      + tries EXTRACT quiet_journal
  ∧ tries CONNECTIVITY_CHECK quiet_journal = 1
  ∧ (tries EXTRACT quiet_journal ≤ 1 + retries default_args)%nat.
Proof.
  assert (run_dag (serving no_predictions) scenario_run fresh
          = (quiet_end, quiet_journal, FAILED LOAD EmptyDataError)) as Hrun
    by (vm_compute; reflexivity).
  split; [exact Hrun|].
  exact (requests_of_a_run _ _ _ _ _ _ Hrun).
Defined.

(** X17. A run that fails leaves the warehouse and the output as they were; the
    only files it may have written are the raw and the clean artifact of
    the run, and none at all when it failed before the Transformer. *)
Theorem failed_run_keeps_the_warehouse net run st st' journal s e :
  run_dag net run st = (st', journal, FAILED s e) →
  files st' !! warehouse_path = files st !! warehouse_path
  ∧ stdout st' = stdout st
  ∧ (∀ path, path ≠ raw_path_of run → path ≠ clean_path_of run →
             files st' !! path = files st !! path)
  ∧ (s = CONNECTIVITY_CHECK ∨ s = EXTRACT → files st' = files st).
Proof.
  intros H. apply run_dag_run in H. inversion H; subst; clear H;
    repeat match goal with
    | T : task_run (check_body _) _ _ _ _ |- _ =>
        apply check_task_run in T as (-> & -> & _)
    | T : task_run (extract_body _ _) _ _ _ (Ok _) |- _ =>
        apply extract_task_run in T
          as (_ & Hout2 & (resp & payload & _ & _ & _ & -> & Hfs2)%extract_ok)
    | T : task_run (extract_body _ _) _ _ _ (Raise _) |- _ =>
        apply extract_task_run in T as (_ & Hout2 & Hfs2 & _)
    | T : task_run (transform_body ?raw ?r) _ _ _ (Ok _) |- _ =>
        apply (file_task_run (transform_mbta_data raw r)
                 (retryable_transform raw r)) in T
          as (_ & Hout3 & _ & (payload' & df & _ & _ & -> & Hfs3)%transform_ok)
    | T : task_run (transform_body ?raw ?r) _ _ _ (Raise _) |- _ =>
        apply (file_task_run (transform_mbta_data raw r)
                 (retryable_transform raw r)) in T as (_ & _ & _ & -> & _)
    | T : task_run (load_body ?clean) _ _ _ (Raise _) |- _ =>
        apply (file_task_run (load_mbta_to_warehouse clean)
                 (retryable_load clean)) in T as (_ & _ & _ & -> & _)
    | T : task_run (quality_body _) _ _ _ _ |- _ =>
        apply quality_task_run in T as (_ & ? & _)
    end; try discriminate; simpl in *.
  - repeat split; try done; auto.
  - repeat split; try congruence; intros; congruence.
  - repeat split; try congruence.
    + rewrite Hfs2. rewrite lookup_insert_ne; [done|].
      apply raw_path_is_not_the_warehouse.
    + intros path Hraw _. rewrite Hfs2. by rewrite lookup_insert_ne.
    + by intros [|].
  - repeat split; try congruence.
    + rewrite Hfs3, Hfs2. rewrite !lookup_insert_ne; [done|..].
      * apply raw_path_is_not_the_warehouse.
      * apply clean_path_is_not_the_warehouse.
    + intros path Hraw Hclean. rewrite Hfs3, Hfs2. by rewrite !lookup_insert_ne.
    + by intros [|].
Qed.

Lemma failed_run_keeps_the_warehouse_witness :
  run_dag (serving no_predictions) scenario_run fresh
  = (quiet_end, quiet_journal, FAILED LOAD EmptyDataError)
  ∧ files quiet_end !! warehouse_path = files fresh !! warehouse_path
  ∧ stdout quiet_end = stdout fresh
  ∧ (∀ path, path ≠ raw_path_of scenario_run → path ≠ clean_path_of scenario_run →
             files quiet_end !! path = files fresh !! path)
  ∧ (LOAD = CONNECTIVITY_CHECK ∨ LOAD = EXTRACT → files quiet_end = files fresh).
Proof.
  assert (run_dag (serving no_predictions) scenario_run fresh
          = (quiet_end, quiet_journal, FAILED LOAD EmptyDataError)) as Hrun
    by (vm_compute; reflexivity).
  split; [exact Hrun|].
  exact (failed_run_keeps_the_warehouse _ _ _ _ _ _ _ Hrun).
Defined.



(** ** When the Extractor is retried *)

(** The failed executions of the Extractor that were followed by a retry
    each got a response with status 200 whose body could not be decoded. *)
Lemma extract_failures net run k st st0 :
  failures (extract_body net run) k st st0 →
  ∀ i, (i < k)%nat →
       ∃ resp e,
         net (requests_made st + i) extract_url = Ok resp
         ∧ status_code resp = 200%Z
         ∧ json_body resp = Raise e.
Proof.
  intros H. induction H as [|k st st1 st2 e Hbody Hslow _ IH]; intros i Hi; [lia|].
  unfold extract_body in Hbody.
  pose proof Hbody as Hst1. apply on_files_raise in Hst1 as [-> Hraise].
  simpl in Hraise.
  destruct i as [|i].
  - rewrite Nat.add_0_r.
    apply extract_raise in Hraise as [-> | (resp & Hget & Hstatus & Hjson)]; [done|].
    eauto.
  - destruct (IH i) as (resp & e' & Hget & Hrest); [lia|].
    exists resp, e'. split; [|exact Hrest].
    simpl in Hget. by replace (requests_made st + S i) with (S (requests_made st + i)) by lia.
Qed.

(** X16. The Extractor is retried only after a response with status 200 whose
    body could not be decoded: in every run, the request of each of its
    attempts but the last got such a response. A request that raised, or a
    status other than 200, ends the stage at once. *)
Theorem extract_is_retried_after_undecodable_bodies net run st st' journal outcome :
  run_dag net run st = (st', journal, outcome) →
  ∀ i, (1 ≤ i < tries EXTRACT journal)%nat →
       ∃ resp e,
         net (requests_made st + i) extract_url = Ok resp
         ∧ status_code resp = 200%Z
         ∧ json_body resp = Raise e.
Proof.
  intros H i Hi. apply run_dag_run in H.
  assert (∃ k2 st1 st2 (r : result string),
            task_run (extract_body net run) st1 k2 st2 r
            ∧ requests_made st1 = S (requests_made st)
            ∧ tries EXTRACT journal = k2) as (k2 & st1 & st2 & r & T2 & Hreq & Hk2).
  { inversion H; subst; clear H;
      repeat match goal with
      | T : task_run (check_body _) _ _ _ _ |- _ =>
          apply check_task_run in T as (-> & -> & _)
      | T : task_run (transform_body ?raw ?r) _ _ _ _ |- _ => clear T
      | T : task_run (load_body ?clean) _ _ _ _ |- _ => clear T
      | T : task_run (quality_body _) _ _ _ _ |- _ => clear T
      end.
    - revert Hi. count_tries. simpl. lia.
    - do 4 eexists. split; [eassumption|]. split; [reflexivity|]. by count_tries.
    - do 4 eexists. split; [eassumption|]. split; [reflexivity|]. by count_tries.
    - do 4 eexists. split; [eassumption|]. split; [reflexivity|]. by count_tries.
    - do 4 eexists. split; [eassumption|]. split; [reflexivity|]. by count_tries.
    - do 4 eexists. split; [eassumption|]. split; [reflexivity|]. by count_tries. }
  destruct T2 as (_ & st0 & Hfail & _).
  destruct (extract_failures _ _ _ _ _ Hfail (i - 1)) as (resp & e & Hget & Hrest);
    [lia|].
  exists resp, e. split; [|exact Hrest].
  by replace (requests_made st + i) with (requests_made st1 + (i - 1)) by lia.
Qed.

Lemma extract_is_retried_after_undecodable_bodies_witness :
  run_dag flaky scenario_run fresh = (flaky_end, flaky_journal, SUCCESS)
  ∧ ∀ i, (1 ≤ i < tries EXTRACT flaky_journal)%nat →
         ∃ resp e,
           flaky (requests_made fresh + i) extract_url = Ok resp
           ∧ status_code resp = 200%Z
           ∧ json_body resp = Raise e.
Proof.
  assert (run_dag flaky scenario_run fresh = (flaky_end, flaky_journal, SUCCESS))
    as Hrun by (vm_compute; reflexivity).
  split; [exact Hrun|].
  exact (extract_is_retried_after_undecodable_bodies _ _ _ _ _ _ Hrun).
Defined.

(** ** Retry exhaustion *)

(** The same, with the exception of each of those executions: it allows a
    retry. *)
Lemma extract_retries net run k st st0 :
  failures (extract_body net run) k st st0 →
  ∀ i, (i < k)%nat →
       ∃ resp e,
         net (requests_made st + i) extract_url = Ok resp
         ∧ status_code resp = 200%Z
         ∧ json_body resp = Raise e
         ∧ fails_without_retry e = false.
Proof.
  intros H. induction H as [|k st st1 st2 e Hbody Hslow _ IH]; intros i Hi; [lia|].
  unfold extract_body in Hbody.
  pose proof Hbody as Hst1. apply on_files_raise in Hst1 as [-> Hraise].
  simpl in Hraise.
  destruct i as [|i].
  - rewrite Nat.add_0_r.
    apply extract_raise in Hraise as [-> | (resp & Hget & Hstatus & Hjson)]; [done|].
    eauto 6.
  - destruct (IH i) as (resp & e' & Hget & Hrest); [lia|].
    exists resp, e'. split; [|exact Hrest].
    simpl in Hget. by replace (requests_made st + S i) with (S (requests_made st + i)) by lia.
Qed.

(** C7 (amended). A run that ends FAILED at a stage has this journal and no
    other: one attempt of the connectivity check; then, if the run got that
    far, k attempts of the Extractor, k between 1 and 1 + 2; then one
    attempt of each later stage that succeeded and 1 + 2 attempts of the
    Transformer or of the Loader when it is the one that failed. Attempts are
    numbered from 1, a wait of 5 minutes precedes each retry, and nothing
    follows the attempts of the failing stage: no later stage is started, and
    the quality check is never the failing stage. The Transformer and the
    Loader end only on exceptions that allow a retry, hence their 1 + 2
    attempts. The connectivity check ends only on AirflowFailException, at
    its single attempt. The Extractor ends on the exception of its last
    attempt; that makes 1 + 2 attempts when the exception allows a retry;
    and every attempt of it that a retry followed had got status 200 with a
    body that could not be decoded, so that a failed request or another
    status, reported as AirflowFailException, ends the stage at the attempt
    that meets it. *)
Theorem retry_exhaustion net run st st' journal s e :
  run_dag net run st = (st', journal, FAILED s e) →
  ∃ k,
    (1 ≤ k ≤ 1 + retries default_args)%nat
    ∧ journal = journal_of (stage_counts (FAILED s e) k)
    ∧ tries s journal
      = match s with
        | CONNECTIVITY_CHECK => 1
        | EXTRACT => k
        | _ => 1 + retries default_args
        end
    ∧ match s with
      | CONNECTIVITY_CHECK =>
          e = AirflowFailException
          ∧ check_mbta_api (net (requests_made st)) = Raise e
      | EXTRACT =>
          extract_mbta_predictions (net (requests_made st + k)) run (files st) = Raise e
          ∧ (fails_without_retry e = false → k = 1 + retries default_args)
          ∧ ∀ i, (1 ≤ i < k)%nat →
                 ∃ resp e',
                   net (requests_made st + i) extract_url = Ok resp
                   ∧ status_code resp = 200%Z
                   ∧ json_body resp = Raise e'
                   ∧ fails_without_retry e' = false
      | TRANSFORM | LOAD => fails_without_retry e = false
      | QUALITY_CHECK => False
      end.
Proof.
  intros H. apply run_dag_run in H. inversion H; subst; clear H;
    repeat match goal with
    | T : task_run (check_body _) _ _ _ _ |- _ =>
        apply check_task_run in T as (-> & -> & Hcheck)
    | T : task_run (transform_body ?raw ?r) _ _ _ (Raise _) |- _ =>
        apply (file_task_run (transform_mbta_data raw r)
                 (retryable_transform raw r)) in T as (_ & _ & -> & _ & _ & Hslow)
    | T : task_run (transform_body ?raw ?r) _ _ _ (Ok _) |- _ =>
        apply (file_task_run (transform_mbta_data raw r)
                 (retryable_transform raw r)) in T as (_ & _ & -> & _)
    | T : task_run (load_body ?clean) _ _ _ (Raise _) |- _ =>
        apply (file_task_run (load_mbta_to_warehouse clean)
                 (retryable_load clean)) in T as (_ & _ & -> & _ & _ & Hslow)
    | T : task_run (load_body ?clean) _ _ _ (Ok _) |- _ =>
        apply (file_task_run (load_mbta_to_warehouse clean)
                 (retryable_load clean)) in T as (_ & _ & -> & _)
    | T : task_run (quality_body _) _ _ _ _ |- _ =>
        apply quality_task_run in T as (-> & ? & _)
    end; try discriminate.
  - exists 1. split; [simpl; lia|]. split; [reflexivity|]. split; [reflexivity|].
    split; [|done].
    pose proof (check_fails_fast net st e) as Hfast. simpl in Hfast.
    rewrite <- Hcheck in Hfast. specialize (Hfast eq_refl). by destruct e.
  - match goal with T : task_run (extract_body _ _) _ ?k _ _ |- _ =>
      pose proof (extract_task_run _ _ _ _ _ _ T) as (_ & _ & _ & Hlast);
      destruct T as (Hk & st0 & Hfail & _ & Hall); exists k end.
    split; [exact Hk|]. split; [|split; [|split; [|split]]].
    + unfold journal_of. simpl. by rewrite ?app_nil_r.
    + by count_tries.
    + simpl in Hlast. rewrite <- Hlast. f_equal. f_equal. lia.
    + by apply Hall.
    + intros i Hi.
      destruct (extract_retries _ _ _ _ _ Hfail (i - 1)) as (resp & e' & Hget & Hrest);
        [lia|].
      exists resp, e'. split; [|exact Hrest].
      simpl in Hget. by replace (requests_made st + i) with (S (requests_made st) + (i - 1)) by lia.
  - match goal with T : task_run (extract_body _ _) _ ?k _ _ |- _ =>
      destruct T as (Hk & _); exists k end.
    split; [exact Hk|]. split; [|split; [|done]].
    + unfold journal_of. simpl. by rewrite ?app_nil_r.
    + by count_tries.
  - match goal with T : task_run (extract_body _ _) _ ?k _ _ |- _ =>
      destruct T as (Hk & _); exists k end.
    split; [exact Hk|]. split; [|split; [|done]].
    + unfold journal_of. simpl. by rewrite ?app_nil_r.
    + by count_tries.
Qed.

Lemma retry_exhaustion_witness :
  run_dag garbled scenario_run fresh
  = (garbled_end, garbled_journal, FAILED EXTRACT JSONDecodeError)
  ∧ ∃ k,
      (1 ≤ k ≤ 1 + retries default_args)%nat
      ∧ garbled_journal = journal_of (stage_counts (FAILED EXTRACT JSONDecodeError) k)
      ∧ tries EXTRACT garbled_journal = k
      ∧ extract_mbta_predictions (garbled (requests_made fresh + k)) scenario_run (files fresh)
        = Raise JSONDecodeError
      ∧ (fails_without_retry JSONDecodeError = false → k = 1 + retries default_args)
      ∧ ∀ i, (1 ≤ i < k)%nat →
             ∃ resp e',
               garbled (requests_made fresh + i) extract_url = Ok resp
               ∧ status_code resp = 200%Z
               ∧ json_body resp = Raise e'
               ∧ fails_without_retry e' = false.
Proof.
  assert (run_dag garbled scenario_run fresh
          = (garbled_end, garbled_journal, FAILED EXTRACT JSONDecodeError)) as Hrun
    by (vm_compute; reflexivity).
  split; [exact Hrun|].
  exact (retry_exhaustion _ _ _ _ _ _ _ Hrun).
Defined.

(** C7, as stated, fails: on a feed that answers every request with status
    503 the connectivity check fails on every attempt, yet the run is FAILED
    after a single attempt of it, not after 1 + 2. *)
Lemma connectivity_check_is_not_retried :
  (∀ n, check_mbta_api (unavailable n) = Raise AirflowFailException)
  ∧ run_dag unavailable scenario_run fresh
    = ({| files := ∅; stdout := []; requests_made := 1 |},
       [Try CONNECTIVITY_CHECK 1],
       FAILED CONNECTIVITY_CHECK AirflowFailException)
  ∧ tries CONNECTIVITY_CHECK [Try CONNECTIVITY_CHECK 1] = 1
  ∧ tries CONNECTIVITY_CHECK [Try CONNECTIVITY_CHECK 1] ≠ 1 + retries default_args.
Proof.
  split; [done|]. split; [by vm_compute|]. split; [done|]. by vm_compute.
Qed.

(** ** What a row copies and what it ignores *)

(** X8. Each retained row carries the identifiers of the route and of the trip
    its prediction points to, the status and the departure time of the
    prediction as they are, and the stamp of the run. *)
Theorem retained_rows_copy_the_prediction payload run df :
  clean_frame payload run = Ok df →
  ∃ preds,
    predictions payload = Ok preds
    ∧ Forall2
        (λ pred r,
           route_id r = related_id pred "route"
           ∧ trip_id r = related_id pred "trip"
           ∧ status r = attribute pred "status"
           ∧ departure_time r = attribute pred "departure_time"
           ∧ execution_date r = run)
        (List.filter has_delay preds)
        (records df).
Proof.
  intros (lk & preds & rows & _ & Hpreds & Hrows & -> & _)%clean_frame_ok.
  exists preds. split; [assumption|]. apply build_rows_ok in Hrows.
  eapply Forall2_impl.
  - apply (Forall2_filter _ has_delay (λ r, notna (delay_seconds r)) _ _ Hrows).
    intros pred r (_ & _ & _ & _ & _ & _ & Hdelay & _)%pred_row_ok.
    unfold has_delay, notna. by rewrite Hdelay.
  - simpl. intros pred r Hrow.
    apply pred_row_ok in Hrow as (? & ? & _ & _ & _ & ? & _ & ? & ? & _).
    done.
Qed.

Lemma retained_rows_copy_the_prediction_witness :
  clean_frame scenario scenario_run = Ok scenario_frame
  ∧ ∃ preds,
      predictions scenario = Ok preds
      ∧ Forall2
          (λ pred r,
             route_id r = related_id pred "route"
             ∧ trip_id r = related_id pred "trip"
             ∧ status r = attribute pred "status"
             ∧ departure_time r = attribute pred "departure_time"
             ∧ execution_date r = scenario_run)
          (List.filter has_delay preds)
          (records scenario_frame).
Proof.
  split; [reflexivity|].
  apply (retained_rows_copy_the_prediction scenario scenario_run scenario_frame).
  reflexivity.
Defined.

Lemma member_app m1 m2 key d :
  member (m1 ++ m2) key d = member m2 key (member m1 key d).
Proof.
  revert d. induction m1 as [|[k v] m1 IH]; intros d; simpl; [reflexivity|].
  apply IH.
Qed.

Lemma member_skip m1 m2 k v key d :
  k ≠ key → member (m1 ++ (k, v) :: m2) key d = member (m1 ++ m2) key d.
Proof.
  intros Hne. rewrite !member_app. simpl.
  by destruct (String.eqb_spec k key).
Qed.

(** X9. Members that the Transformer does not ask for play no role: a member of
    a prediction other than its attributes and relationships (its id, its
    type, its links) does not change the row, and a member of the payload
    other than data and included does not change the outcome. *)
Theorem unused_members_are_ignored m1 m2 k v :
  (k ≠ "attributes" → k ≠ "relationships" →
   ∀ lk run, pred_row lk run (JObj (m1 ++ (k, v) :: m2))
             = pred_row lk run (JObj (m1 ++ m2)))
  ∧ (k ≠ "data" → k ≠ "included" →
     ∀ run, clean_frame (JObj (m1 ++ (k, v) :: m2)) run
            = clean_frame (JObj (m1 ++ m2)) run).
Proof.
  split.
  - intros Ha Hr lk run. unfold pred_row. simpl. by rewrite !member_skip.
  - intros Hd Hi run. unfold clean_frame. simpl. by rewrite !member_skip.
Qed.

Lemma unused_members_are_ignored_witness :
  pred_row no_lookups scenario_run
    (JObj ([] ++ ("id", JStr "prediction-3") :: [("attributes", JObj [("delay", JInt 0)])]))
  = pred_row no_lookups scenario_run
      (JObj ([] ++ [("attributes", JObj [("delay", JInt 0)])]))
  ∧ clean_frame
      (JObj ([("data", JArr scenario_predictions)]
             ++ ("jsonapi", JObj [("version", JStr "1.0")])
             :: [("included", JArr [scenario_route; scenario_trip])]))
      scenario_run
    = clean_frame
        (JObj ([("data", JArr scenario_predictions)]
               ++ [("included", JArr [scenario_route; scenario_trip])]))
        scenario_run.
Proof.
  split.
  - apply (unused_members_are_ignored [] [("attributes", JObj [("delay", JInt 0)])]
             "id" (JStr "prediction-3")); discriminate.
  - apply (unused_members_are_ignored [("data", JArr scenario_predictions)]
             [("included", JArr [scenario_route; scenario_trip])]
             "jsonapi" (JObj [("version", JStr "1.0")])); discriminate.
Defined.
